(** * Web-Designer: the canvas editor's state transitions

    A shallow embedding of the two [App] components of the repository:

    - [Full]    : the component with icon, text, image and table content,
                  manual block creation, duplicate and delete;
    - [Reduced] : [web-designer/src/App.tsx], with icon and text content only.

    Conventions of the embedding.

    - JavaScript numbers that hold pixel coordinates are integers ([Z]).
      The statements apply to them only what the code applies (subtraction,
      minimum, absolute value, the offset of a copy, comparison with the
      threshold) and rest on no regrouping or cancellation of sums.
    - [uuidv4()] is an external generator: the value it returns at a call is
      an argument ([uuid]) of the handler that calls it.
    - [prompt(..)] returns [string | null]: the answer is an [option string].
    - A handler is a function of the values its closure captured at render
      time (a whole state [c]) that yields an action on the latest state.
      [setX(v)] overwrites a field, [setX(prev => f prev)] maps the latest
      value of the field.  A synchronous event runs the handler with the
      closure equal to the latest state ([dispatch]); an asynchronous
      completion runs on a later state with the closure it was created in. *)

From Stdlib Require Import ZArith List String Ascii Bool Lia.
Import ListNotations.

Local Open Scope Z_scope.
Local Open Scope string_scope.
Local Open Scope list_scope.

(** ** Values *)

(** The payload of a block's content is typed [any] in the source. *)
#[local] Unset Elimination Schemes.
Inductive Json : Type :=
| JNull
| JBool (b : bool)
| JNum (n : Z)
| JStr (s : string)
| JArr (items : list Json)
| JObj (fields : list (string * Json)).
#[local] Set Elimination Schemes.

Inductive Notification : Type :=
| Alert (msg : string).

Module Content.
Record t (Tag : Type) : Type := mk { type : Tag; data : Json }.
Arguments mk {Tag} _ _.
Arguments type {Tag} _.
Arguments data {Tag} _.
End Content.

Module Block.
Record t (Tag : Type) : Type := mk
  { id : string;
    x : Z;
    y : Z;
    width : Z;
    height : Z;
    content : option (Content.t Tag) }.
Arguments mk {Tag} _ _ _ _ _ _.
Arguments id {Tag} _.
Arguments x {Tag} _.
Arguments y {Tag} _.
Arguments width {Tag} _.
Arguments height {Tag} _.
Arguments content {Tag} _.

(** [{ ...b, id: i }] *)
Definition with_id {Tag} (b : t Tag) (i : string) : t Tag :=
  mk i (x b) (y b) (width b) (height b) (content b).

(** [{ ...b, content: c }] *)
Definition with_content {Tag} (b : t Tag) (c : Content.t Tag) : t Tag :=
  mk (id b) (x b) (y b) (width b) (height b) (Some c).

(** [{ ...b, x: px, y: py }] *)
Definition with_pos {Tag} (b : t Tag) (px py : Z) : t Tag :=
  mk (id b) px py (width b) (height b) (content b).

(** [{ ...b, width: w, height: h, ...pos }] *)
Definition with_size_pos {Tag} (b : t Tag) (w h px py : Z) : t Tag :=
  mk (id b) px py w h (content b).
End Block.

Module Point.
Record t : Type := mk { x : Z; y : Z }.
End Point.

Module DOMRect.
Record t : Type := mk { left : Z; top : Z }.
End DOMRect.

(** What the handlers read of an event's target: whether
    [target.closest(".rnd-block")] is non-null, and [target.tagName]. *)
Module Target.
Record t : Type := mk { closest_rnd_block : bool; tagName : string }.
End Target.

Module MouseEvent.
Record t : Type := mk { clientX : Z; clientY : Z; target : Target.t }.
End MouseEvent.

(** [getRelativeCoordinates]; [rect] is
    [containerRef.current!.getBoundingClientRect()]. *)
Definition getRelativeCoordinates (rect : DOMRect.t) (e : MouseEvent.t) : Point.t :=
  Point.mk (MouseEvent.clientX e - DOMRect.left rect)
           (MouseEvent.clientY e - DOMRect.top rect).

Definition ids {Tag} (l : list (Block.t Tag)) : list string :=
  map Block.id l.

(** [!text] for [text : string | null]. *)
Definition falsy (text : option string) : bool :=
  match text with
  | None => true
  | Some s => s =? ""
  end.

(** [i === sel] for [sel : string | null]. *)
Definition id_is (i : string) (sel : option string) : bool :=
  match sel with
  | Some s => i =? s
  | None => false
  end.

(** ** The selection invariant, on a registry and a selected id *)

(** The selected id is null or the id of a block of the registry. *)
Definition selection_valid {Tag} (sel : option string) (l : list (Block.t Tag)) : Prop :=
  match sel with
  | None => True
  | Some i => In i (ids l)
  end.

(** How many blocks the view renders as selected
    ([selectedId === block.id]). *)
Definition selected_count {Tag} (sel : option string) (l : list (Block.t Tag)) : nat :=
  List.length (filter (fun b => id_is (Block.id b) sel) l).

Definition SelectionInvariant {Tag} (sel : option string) (l : list (Block.t Tag)) : Prop :=
  selection_valid sel l /\ (selected_count sel l <= 1)%nat.

(** The selection invariant together with the uniqueness of ids, on which
    it depends. *)
Definition WellFormed {Tag} (sel : option string) (l : list (Block.t Tag)) : Prop :=
  NoDup (ids l) /\ SelectionInvariant sel l.

(** ** Handler actions *)

Section Act.
Variable State : Type.

Definition Act (A : Type) : Type := State -> A * State * list Notification.

Definition ret {A} (a : A) : Act A := fun st => (a, st, []).

Definition bind {A B} (m : Act A) (k : A -> Act B) : Act B :=
  fun st =>
    let '(a, st1, out1) := m st in
    let '(b, st2, out2) := k a st1 in
    (b, st2, out1 ++ out2).

Definition alert (msg : string) : Act unit :=
  fun st => (tt, st, [Alert msg]).

Definition modify (f : State -> State) : Act unit :=
  fun st => (tt, f st, []).

(** A synchronous event: the closure holds the state of the last render,
    which is the latest state. *)
Definition dispatch (h : State -> Act unit) (s : State) : State * list Notification :=
  let '(_, s', out) := h s s in (s', out).

(** An asynchronous completion: the closure [c] is the state in which the
    operation started, [s] the state when it completes. *)
Definition complete (h : State -> Act unit) (c s : State) : State * list Notification :=
  let '(_, s', out) := h c s in (s', out).
End Act.

Arguments ret {State A} _ _.
Arguments bind {State A B} _ _ _.
Arguments alert {State} _ _.
Arguments modify {State} _ _.
Arguments dispatch {State} _ _.
Arguments complete {State} _ _ _.

Declare Scope act_scope.
Delimit Scope act_scope with act.
Notation "m ;; k" := (bind m (fun _ => k))
  (at level 61, right associativity) : act_scope.
Local Open Scope act_scope.

(** ** The full variant *)

Module Full.

Inductive ContentType : Type := icon | text | image | table.

Definition Block : Type := Block.t ContentType.

Record AppState : Type := mkState
  { blocks : list Block;
    selectedId : option string;
    showModal : bool;
    promptText : string;
    isSelecting : bool;
    startPoint : option Point.t;
    selectionPreview : option Block }.

Definition initial : AppState :=
  mkState [] None false "" false None None.

Definition setBlocks (v : list Block) : Act AppState unit :=
  modify (fun st => mkState v (selectedId st) (showModal st) (promptText st)
                            (isSelecting st) (startPoint st) (selectionPreview st)).

(** [setBlocks((prev) => f prev)] *)
Definition setBlocksFn (f : list Block -> list Block) : Act AppState unit :=
  modify (fun st => mkState (f (blocks st)) (selectedId st) (showModal st) (promptText st)
                            (isSelecting st) (startPoint st) (selectionPreview st)).

Definition setSelectedId (v : option string) : Act AppState unit :=
  modify (fun st => mkState (blocks st) v (showModal st) (promptText st)
                            (isSelecting st) (startPoint st) (selectionPreview st)).

Definition setShowModal (v : bool) : Act AppState unit :=
  modify (fun st => mkState (blocks st) (selectedId st) v (promptText st)
                            (isSelecting st) (startPoint st) (selectionPreview st)).

Definition setPromptText (v : string) : Act AppState unit :=
  modify (fun st => mkState (blocks st) (selectedId st) (showModal st) v
                            (isSelecting st) (startPoint st) (selectionPreview st)).

Definition setIsSelecting (v : bool) : Act AppState unit :=
  modify (fun st => mkState (blocks st) (selectedId st) (showModal st) (promptText st)
                            v (startPoint st) (selectionPreview st)).

Definition setStartPoint (v : option Point.t) : Act AppState unit :=
  modify (fun st => mkState (blocks st) (selectedId st) (showModal st) (promptText st)
                            (isSelecting st) v (selectionPreview st)).

Definition setSelectionPreview (v : option Block) : Act AppState unit :=
  modify (fun st => mkState (blocks st) (selectedId st) (showModal st) (promptText st)
                            (isSelecting st) (startPoint st) v).

(** The icon payload, byte for byte as the source file has it. *)
Definition ICON : string :=
  String (ascii_of_nat 195) (String (ascii_of_nat 162)
    (String (ascii_of_nat 194) (String (ascii_of_nat 173) EmptyString))).

(** *** Block actions *)

Definition createDefaultBlock (uuid : string) (c : AppState) : Act AppState unit :=
  let newBlock : Block := Block.mk uuid 100 100 200 150 None in
  setBlocks (blocks c ++ [newBlock]) ;;
  setSelectedId (Some (Block.id newBlock)).

Definition deleteBlock (id : string) (c : AppState) : Act AppState unit :=
  setBlocks (filter (fun b => negb (Block.id b =? id)) (blocks c)) ;;
  setSelectedId None.

Definition duplicateBlock (uuid : string) (block : Block) (c : AppState) : Act AppState unit :=
  let newBlock : Block :=
    Block.mk uuid (Block.x block + 20) (Block.y block + 20)
             (Block.width block) (Block.height block) (Block.content block) in
  setBlocks (blocks c ++ [newBlock]) ;;
  setSelectedId (Some (Block.id newBlock)).

(** *** Content actions *)

Definition addIcon (id : string) (c : AppState) : Act AppState unit :=
  setBlocksFn (fun prev =>
    map (fun b => if Block.id b =? id
                  then Block.with_content b (Content.mk icon (JStr ICON))
                  else b) prev).

(** [answer] is what [prompt("Enter text:")] returned. *)
Definition addText (id : string) (answer : option string) (c : AppState) : Act AppState unit :=
  if falsy answer then ret tt
  else
    match answer with
    | Some t =>
        setBlocksFn (fun prev =>
          map (fun b => if Block.id b =? id
                        then Block.with_content b (Content.mk text (JStr t))
                        else b) prev)
    | None => ret tt
    end.

(** The [reader.onload] callback of [addImage]; [result] is
    [reader.result]. *)
Definition addImage_onload (id : string) (result : Json) (c : AppState) : Act AppState unit :=
  setBlocksFn (fun prev =>
    map (fun b => if Block.id b =? id
                  then Block.with_content b (Content.mk image result)
                  else b) prev).

(** How the promise of [axios.post] settles. *)
Inductive AxiosResult : Type :=
| Fulfilled (data : Json)
| Rejected.

(** The body posted by [sendTablePrompt]. *)
Definition sendTablePrompt_request (c : AppState) : string := promptText c.

(** [sendTablePrompt] from the point where the awaited request settles:
    the [try] body on fulfilment, the [catch] body on rejection. *)
Definition sendTablePrompt (res : AxiosResult) (c : AppState) : Act AppState unit :=
  match res with
  | Fulfilled d =>
      setBlocksFn (fun prev =>
        map (fun b => if id_is (Block.id b) (selectedId c)
                      then Block.with_content b (Content.mk table d)
                      else b) prev) ;;
      setShowModal false ;;
      setPromptText ""
  | Rejected =>
      alert "Backend error generating table"
  end.

(** *** Mouse events for click-and-drag creation *)

Definition handleMouseDown (rect : DOMRect.t) (e : MouseEvent.t) (c : AppState) : Act AppState unit :=
  let target := MouseEvent.target e in
  if Target.closest_rnd_block target
     || (Target.tagName target =? "BUTTON")
     || (Target.tagName target =? "INPUT")
  then ret tt
  else
    let p := getRelativeCoordinates rect e in
    setIsSelecting true ;;
    setStartPoint (Some (Point.mk (Point.x p) (Point.y p))) ;;
    setSelectedId None.

Definition handleMouseMove (rect : DOMRect.t) (e : MouseEvent.t) (c : AppState) : Act AppState unit :=
  match isSelecting c, startPoint c with
  | true, Some sp =>
      let p := getRelativeCoordinates rect e in
      setSelectionPreview (Some (Block.mk "temp"
        (Z.min (Point.x sp) (Point.x p))
        (Z.min (Point.y sp) (Point.y p))
        (Z.abs (Point.x p - Point.x sp))
        (Z.abs (Point.y p - Point.y sp))
        None))
  | _, _ => ret tt
  end.

Definition handleMouseUp (uuid : string) (c : AppState) : Act AppState unit :=
  match selectionPreview c with
  | Some sp =>
      if (Block.width sp >? 20) && (Block.height sp >? 20) then
        let newBlock : Block := Block.with_id sp uuid in
        setBlocks (blocks c ++ [newBlock]) ;;
        setSelectedId (Some (Block.id newBlock))
      else ret tt
  | None => ret tt
  end ;;
  setIsSelecting false ;;
  setStartPoint None ;;
  setSelectionPreview None.

(** *** Handlers written inline in the rendered tree *)

(** [onDragStop] of the block with id [id]. *)
Definition onDragStop (id : string) (d : Point.t) (c : AppState) : Act AppState unit :=
  setBlocksFn (fun prev =>
    map (fun b => if Block.id b =? id
                  then Block.with_pos b (Point.x d) (Point.y d)
                  else b) prev).

(** [onResizeStop] of the block with id [id]; [w] and [h] are the parsed
    [ref.style.width] and [ref.style.height]. *)
Definition onResizeStop (id : string) (w h : Z) (pos : Point.t) (c : AppState) : Act AppState unit :=
  setBlocksFn (fun prev =>
    map (fun b => if Block.id b =? id
                  then Block.with_size_pos b w h (Point.x pos) (Point.y pos)
                  else b) prev).

(** [onClick] of a rendered block. *)
Definition onClick (block : Block) (c : AppState) : Act AppState unit :=
  setSelectedId (Some (Block.id block)).

(** [blocks.find((b) => b.id === selectedId)] *)
Definition selectedBlock (s : AppState) : option Block :=
  find (fun b => id_is (Block.id b) (selectedId s)) (blocks s).

(** *** Everything that can happen to the state *)

Inductive Event : Type :=
| EvCreateDefaultBlock (uuid : string)
| EvDeleteBlock (id : string)
| EvDuplicateBlock (uuid : string) (block : Block)
| EvAddIcon (id : string)
| EvAddText (id : string) (answer : option string)
| EvImageLoaded (id : string) (result : Json)
| EvTableSettled (closure : AppState) (res : AxiosResult)
| EvMouseDown (rect : DOMRect.t) (e : MouseEvent.t)
| EvMouseMove (rect : DOMRect.t) (e : MouseEvent.t)
| EvMouseUp (uuid : string)
| EvClick (block : Block)
| EvDragStop (id : string) (d : Point.t)
| EvResizeStop (id : string) (w h : Z) (pos : Point.t)
| EvSetShowModal (v : bool)
| EvSetPromptText (v : string).

Definition step (ev : Event) (s : AppState) : AppState * list Notification :=
  match ev with
  | EvCreateDefaultBlock uuid => dispatch (createDefaultBlock uuid) s
  | EvDeleteBlock id => dispatch (deleteBlock id) s
  | EvDuplicateBlock uuid block => dispatch (duplicateBlock uuid block) s
  | EvAddIcon id => dispatch (addIcon id) s
  | EvAddText id answer => dispatch (addText id answer) s
  | EvImageLoaded id result => dispatch (addImage_onload id result) s
  | EvTableSettled closure res => complete (sendTablePrompt res) closure s
  | EvMouseDown rect e => dispatch (handleMouseDown rect e) s
  | EvMouseMove rect e => dispatch (handleMouseMove rect e) s
  | EvMouseUp uuid => dispatch (handleMouseUp uuid) s
  | EvClick block => dispatch (onClick block) s
  | EvDragStop id d => dispatch (onDragStop id d) s
  | EvResizeStop id w h pos => dispatch (onResizeStop id w h pos) s
  | EvSetShowModal v => dispatch (fun _ => setShowModal v) s
  | EvSetPromptText v => dispatch (fun _ => setPromptText v) s
  end.

(** What the environment guarantees of an event: a generated id is not
    already in use, and a click comes from a block that is rendered. *)
Definition enabled (ev : Event) (s : AppState) : Prop :=
  match ev with
  | EvCreateDefaultBlock uuid => ~ In uuid (ids (blocks s))
  | EvDuplicateBlock uuid _ => ~ In uuid (ids (blocks s))
  | EvMouseUp uuid => ~ In uuid (ids (blocks s))
  | EvClick block => In block (blocks s)
  | _ => True
  end.

(** The part of [enabled] that concerns clicks. *)
Definition delivered (ev : Event) (s : AppState) : Prop :=
  match ev with
  | EvClick block => In block (blocks s)
  | _ => True
  end.

(** A sequence of events, from the left. *)
Fixpoint run (evs : list Event) (s : AppState) : AppState :=
  match evs with
  | [] => s
  | ev :: evs' => run evs' (fst (step ev s))
  end.

Definition Inv (s : AppState) : Prop :=
  WellFormed (selectedId s) (blocks s).

(** *** The floating toolbar *)

(** The toolbar is rendered only while [selectedBlock] is defined, and its
    buttons pass that block to the actions; with no selected block there is
    no button to press. *)
Definition toolbar (action : Block -> AppState -> Act AppState unit)
           (c : AppState) : Act AppState unit :=
  match selectedBlock c with
  | Some sb => action sb c
  | None => ret tt
  end.

Definition toolbarText (answer : option string) : AppState -> Act AppState unit :=
  toolbar (fun sb => addText (Block.id sb) answer).

Definition toolbarIcon : AppState -> Act AppState unit :=
  toolbar (fun sb => addIcon (Block.id sb)).

Definition toolbarTable : AppState -> Act AppState unit :=
  toolbar (fun _ _ => setShowModal true).

Definition toolbarCopy (uuid : string) : AppState -> Act AppState unit :=
  toolbar (fun sb => duplicateBlock uuid sb).

Definition toolbarDel : AppState -> Act AppState unit :=
  toolbar (fun sb => deleteBlock (Block.id sb)).

(** Where the toolbar is drawn: [left: selectedBlock.x],
    [top: selectedBlock.y - 50]. *)
Definition toolbarPosition (s : AppState) : option Point.t :=
  match selectedBlock s with
  | Some sb => Some (Point.mk (Block.x sb) (Block.y sb - 50))
  | None => None
  end.

(** The events that assign content. *)
Definition is_content_event (ev : Event) : bool :=
  match ev with
  | EvAddIcon _ | EvAddText _ _ | EvImageLoaded _ _ | EvTableSettled _ _ => true
  | _ => false
  end.

Definition is_delete_event (ev : Event) : bool :=
  match ev with
  | EvDeleteBlock _ => true
  | _ => false
  end.

(** The toolbar's copy passes [selectedBlock], a block of the registry. *)
Definition copies_from_registry (ev : Event) (s : AppState) : Prop :=
  match ev with
  | EvDuplicateBlock _ block => In block (blocks s)
  | _ => True
  end.

(** A resize that delivers a size above the drawing threshold. *)
Definition resize_above_threshold (ev : Event) : Prop :=
  match ev with
  | EvResizeStop _ w h _ => 20 < w /\ 20 < h
  | _ => True
  end.

End Full.

(** ** The reduced variant *)

Module Reduced.

Inductive ContentType : Type := icon | text.

Definition Block : Type := Block.t ContentType.

Record AppState : Type := mkState
  { blocks : list Block;
    selectedBlockId : option string;
    isSelecting : bool;
    startPoint : option Point.t;
    selection : option Block }.

Definition initial : AppState :=
  mkState [] None false None None.

Definition setBlocks (v : list Block) : Act AppState unit :=
  modify (fun st => mkState v (selectedBlockId st)
                            (isSelecting st) (startPoint st) (selection st)).

Definition setBlocksFn (f : list Block -> list Block) : Act AppState unit :=
  modify (fun st => mkState (f (blocks st)) (selectedBlockId st)
                            (isSelecting st) (startPoint st) (selection st)).

Definition setSelectedBlockId (v : option string) : Act AppState unit :=
  modify (fun st => mkState (blocks st) v
                            (isSelecting st) (startPoint st) (selection st)).

Definition setIsSelecting (v : bool) : Act AppState unit :=
  modify (fun st => mkState (blocks st) (selectedBlockId st)
                            v (startPoint st) (selection st)).

Definition setStartPoint (v : option Point.t) : Act AppState unit :=
  modify (fun st => mkState (blocks st) (selectedBlockId st)
                            (isSelecting st) v (selection st)).

Definition setSelection (v : option Block) : Act AppState unit :=
  modify (fun st => mkState (blocks st) (selectedBlockId st)
                            (isSelecting st) (startPoint st) v).

(** The icon payload: U+2B50 in UTF-8. *)
Definition ICON : string :=
  String (ascii_of_nat 226) (String (ascii_of_nat 173)
    (String (ascii_of_nat 144) EmptyString)).

Definition handleMouseDown (rect : DOMRect.t) (e : MouseEvent.t) (c : AppState) : Act AppState unit :=
  let p := getRelativeCoordinates rect e in
  setIsSelecting true ;;
  setStartPoint (Some (Point.mk (Point.x p) (Point.y p))) ;;
  setSelection None ;;
  setSelectedBlockId None.

Definition handleMouseMove (rect : DOMRect.t) (e : MouseEvent.t) (c : AppState) : Act AppState unit :=
  match isSelecting c, startPoint c with
  | true, Some sp =>
      let p := getRelativeCoordinates rect e in
      setSelection (Some (Block.mk "temp"
        (Z.min (Point.x sp) (Point.x p))
        (Z.min (Point.y sp) (Point.y p))
        (Z.abs (Point.x p - Point.x sp))
        (Z.abs (Point.y p - Point.y sp))
        None))
  | _, _ => ret tt
  end.

Definition handleMouseUp (uuid : string) (c : AppState) : Act AppState unit :=
  match selection c with
  | Some sel =>
      if (Block.width sel >? 20) && (Block.height sel >? 20) then
        setBlocks (blocks c ++ [Block.with_id sel uuid])
      else ret tt
  | None => ret tt
  end ;;
  setIsSelecting false ;;
  setSelection None.

Definition addIconToBlock (id : string) (c : AppState) : Act AppState unit :=
  setBlocksFn (fun prev =>
    map (fun block => if Block.id block =? id
                      then Block.with_content block (Content.mk icon (JStr ICON))
                      else block) prev).

Definition addTextToBlock (id : string) (answer : option string) (c : AppState) : Act AppState unit :=
  if falsy answer then ret tt
  else
    match answer with
    | Some t =>
        setBlocksFn (fun prev =>
          map (fun block => if Block.id block =? id
                            then Block.with_content block (Content.mk text (JStr t))
                            else block) prev)
    | None => ret tt
    end.

(** [onClick] of a rendered block. *)
Definition onClick (block : Block) (c : AppState) : Act AppState unit :=
  setSelectedBlockId (Some (Block.id block)).

Inductive Event : Type :=
| EvMouseDown (rect : DOMRect.t) (e : MouseEvent.t)
| EvMouseMove (rect : DOMRect.t) (e : MouseEvent.t)
| EvMouseUp (uuid : string)
| EvAddIconToBlock (id : string)
| EvAddTextToBlock (id : string) (answer : option string)
| EvClick (block : Block).

Definition step (ev : Event) (s : AppState) : AppState * list Notification :=
  match ev with
  | EvMouseDown rect e => dispatch (handleMouseDown rect e) s
  | EvMouseMove rect e => dispatch (handleMouseMove rect e) s
  | EvMouseUp uuid => dispatch (handleMouseUp uuid) s
  | EvAddIconToBlock id => dispatch (addIconToBlock id) s
  | EvAddTextToBlock id answer => dispatch (addTextToBlock id answer) s
  | EvClick block => dispatch (onClick block) s
  end.

Definition enabled (ev : Event) (s : AppState) : Prop :=
  match ev with
  | EvMouseUp uuid => ~ In uuid (ids (blocks s))
  | EvClick block => In block (blocks s)
  | _ => True
  end.

Definition delivered (ev : Event) (s : AppState) : Prop :=
  match ev with
  | EvClick block => In block (blocks s)
  | _ => True
  end.

Fixpoint run (evs : list Event) (s : AppState) : AppState :=
  match evs with
  | [] => s
  | ev :: evs' => run evs' (fst (step ev s))
  end.

Definition Inv (s : AppState) : Prop :=
  WellFormed (selectedBlockId s) (blocks s).

(** [blocks.find((b) => b.id === selectedBlockId)] *)
Definition selectedBlock (s : AppState) : option Block :=
  find (fun b => id_is (Block.id b) (selectedBlockId s)) (blocks s).

(** The toolbar, rendered only while [selectedBlock] is defined. *)
Definition toolbar (action : Block -> AppState -> Act AppState unit)
           (c : AppState) : Act AppState unit :=
  match selectedBlock c with
  | Some sb => action sb c
  | None => ret tt
  end.

Definition toolbarAddIcon : AppState -> Act AppState unit :=
  toolbar (fun sb => addIconToBlock (Block.id sb)).

Definition toolbarAddText (answer : option string) : AppState -> Act AppState unit :=
  toolbar (fun sb => addTextToBlock (Block.id sb) answer).

(** [left: selectedBlock.x], [top: selectedBlock.y - 40]. *)
Definition toolbarPosition (s : AppState) : option Point.t :=
  match selectedBlock s with
  | Some sb => Some (Point.mk (Block.x sb) (Block.y sb - 40))
  | None => None
  end.

End Reduced.

(** ** Targets on which the full variant ignores a pointer-down *)

(** The condition of the early return of [Full.handleMouseDown]. *)
Definition Full_guard (e : MouseEvent.t) : bool :=
  Target.closest_rnd_block (MouseEvent.target e)
  || (Target.tagName (MouseEvent.target e) =? "BUTTON")
  || (Target.tagName (MouseEvent.target e) =? "INPUT").

(** ** Concrete states and events used by the examples *)

Module Examples.

(** Two blocks, the first one selected. *)
Definition full_two_blocks : Full.AppState :=
  Full.mkState [Block.mk "a" 100 100 200 150 None; Block.mk "b" 120 120 200 150 None]
               (Some "a") false "" false None None.

Definition reduced_one_block : Reduced.AppState :=
  Reduced.mkState [Block.mk "a" 100 100 200 150 None] (Some "a") false None None.

(** States at the end of a drag, with a preview of the given size. *)
Definition full_drawing (w h : Z) : Full.AppState :=
  Full.mkState [] None false "" true (Some (Point.mk 10 10))
               (Some (Block.mk "temp" 10 10 w h None)).

Definition reduced_drawing (w h : Z) : Reduced.AppState :=
  Reduced.mkState [] None true (Some (Point.mk 10 10))
                  (Some (Block.mk "temp" 10 10 w h None)).

Definition origin : DOMRect.t := DOMRect.mk 0 0.

Definition on_surface (px py : Z) : MouseEvent.t :=
  MouseEvent.mk px py (Target.mk false "DIV").

Definition on_block (px py : Z) : MouseEvent.t :=
  MouseEvent.mk px py (Target.mk true "DIV").

Definition on_button (px py : Z) : MouseEvent.t :=
  MouseEvent.mk px py (Target.mk false "BUTTON").

End Examples.

(** ** Views of a block and of an event used in the statements *)

(** Position and size of a block. *)
Definition geometry {Tag} (b : Block.t Tag) : Z * Z * Z * Z :=
  (Block.x b, Block.y b, Block.width b, Block.height b).

(** Wider and taller than the threshold of the draw gesture. *)
Definition above_threshold {Tag} (b : Block.t Tag) : Prop :=
  20 < Block.width b /\ 20 < Block.height b.

(** * Properties *)

(** ** Lists of blocks updated by id *)

Section ById.
Context {Tag : Type}.
Implicit Types (l : list (Block.t Tag)) (b : Block.t Tag) (i : string).

Lemma map_by_id_absent (f : Block.t Tag -> Block.t Tag) i l :
  ~ In i (ids l) ->
  map (fun b => if Block.id b =? i then f b else b) l = l.
Proof.
  induction l as [|b l IH]; simpl; intros Hn; [reflexivity|].
  destruct (String.eqb_spec (Block.id b) i) as [E|_].
  - exfalso; apply Hn; now left.
  - f_equal. apply IH. intros Hin; apply Hn; now right.
Qed.

Lemma map_by_id_ids (f : Block.t Tag -> Block.t Tag) (p : Block.t Tag -> bool) l :
  (forall b, Block.id (f b) = Block.id b) ->
  ids (map (fun b => if p b then f b else b) l) = ids l.
Proof.
  intros Hf. unfold ids. rewrite map_map. apply map_ext.
  intros b. destruct (p b); [apply Hf | reflexivity].
Qed.

Lemma ids_app l1 l2 : ids (l1 ++ l2) = ids l1 ++ ids l2.
Proof. apply map_app. Qed.

Lemma ids_filter_incl (p : Block.t Tag -> bool) l i :
  In i (ids (filter p l)) -> In i (ids l).
Proof.
  unfold ids. rewrite !in_map_iff. intros (b & Hb & Hin).
  apply filter_In in Hin. exists b. tauto.
Qed.

Lemma NoDup_ids_filter (p : Block.t Tag -> bool) l :
  NoDup (ids l) -> NoDup (ids (filter p l)).
Proof.
  induction l as [|b l IH]; cbn; intros Hnd; [constructor|].
  inversion Hnd as [|? ? Hnotin Hnd']; subst.
  destruct (p b); cbn; auto.
  constructor; auto. intros Hin. apply Hnotin. eapply ids_filter_incl; eauto.
Qed.

Lemma NoDup_ids_snoc l b :
  NoDup (ids l) -> ~ In (Block.id b) (ids l) -> NoDup (ids (l ++ [b])).
Proof.
  intros Hnd Hn. rewrite ids_app. cbn.
  apply NoDup_app; [assumption | repeat constructor; intros [] |].
  intros a Ha [<-|[]]. contradiction.
Qed.

Lemma selected_count_absent i l :
  ~ In i (ids l) -> selected_count (Some i) l = 0%nat.
Proof.
  unfold selected_count, id_is.
  induction l as [|b l IH]; simpl; intros Hn; [reflexivity|].
  destruct (String.eqb_spec (Block.id b) i) as [E|_].
  - exfalso; apply Hn; now left.
  - apply IH. intros Hin; apply Hn; now right.
Qed.

Lemma selected_count_NoDup sel l :
  NoDup (ids l) -> (selected_count sel l <= 1)%nat.
Proof.
  destruct sel as [i|].
  - induction l as [|b l IH]; simpl; intros Hnd; [unfold selected_count; simpl; lia|].
    inversion Hnd as [|? ? Hnotin Hnd']; subst.
    specialize (IH Hnd').
    unfold selected_count, id_is in *; simpl.
    destruct (String.eqb_spec (Block.id b) i) as [E|_]; simpl.
    + subst i. pose proof (selected_count_absent _ _ Hnotin) as H0.
      unfold selected_count, id_is in H0. rewrite H0. lia.
    + exact IH.
  - intros _. unfold selected_count.
    induction l as [|b l IH]; cbn; [lia | exact IH].
Qed.

Lemma WellFormed_intro sel l :
  NoDup (ids l) -> selection_valid sel l -> WellFormed sel l.
Proof.
  intros Hnd Hv. split; [assumption|]. split; [assumption|].
  now apply selected_count_NoDup.
Qed.

Lemma WellFormed_same_ids sel l l' :
  ids l' = ids l -> WellFormed sel l -> WellFormed sel l'.
Proof.
  intros E (Hnd & Hv & _). apply WellFormed_intro.
  - now rewrite E.
  - destruct sel; cbn in *; [now rewrite E | exact I].
Qed.
End ById.

(** ** Computation rules of the handlers *)

Lemma filter_out_id_split {Tag} (i : string) (l : list (Block.t Tag)) :
  NoDup (ids l) -> In i (ids l) ->
  exists l1 b l2,
    l = l1 ++ b :: l2 /\ Block.id b = i /\
    filter (fun b => negb (Block.id b =? i)) l = l1 ++ l2.
Proof.
  induction l as [|a l IH]; simpl; intros Hnd Hin; [contradiction|].
  inversion Hnd as [|? ? Hnotin Hnd']; subst.
  destruct (String.eqb_spec (Block.id a) i) as [E|NE]; simpl.
  - exists [], a, l. repeat split; auto. simpl.
    subst i. clear -Hnotin.
    induction l as [|c l IH]; simpl; [reflexivity|].
    destruct (String.eqb_spec (Block.id c) (Block.id a)) as [E|_]; simpl.
    + exfalso. apply Hnotin. left. exact E.
    + f_equal. apply IH. intros H. apply Hnotin. now right.
  - destruct Hin as [E|Hin]; [contradiction|].
    destruct (IH Hnd' Hin) as (l1 & b & l2 & -> & Hb & Hf).
    exists (a :: l1), b, l2. repeat split; auto. simpl. now rewrite Hf.
Qed.

Lemma Full_deleteBlock_run (id : string) (s : Full.AppState) :
  dispatch (Full.deleteBlock id) s =
  (Full.mkState (filter (fun b => negb (Block.id b =? id)) (Full.blocks s)) None
                (Full.showModal s) (Full.promptText s) (Full.isSelecting s)
                (Full.startPoint s) (Full.selectionPreview s), []).
Proof. reflexivity. Qed.

(** ** C1: delete *)

(** C1, as stated, fails: in a registry holding blocks "a" and "b" with "a"
    selected, deleting the block "b", which is present and is not the
    selected one, does not leave the selection unchanged. *)
Lemma C1_delete_unselected_counterexample :
  In "b" (ids (Full.blocks Examples.full_two_blocks)) /\
  Full.selectedId Examples.full_two_blocks = Some "a" /\
  Full.selectedId Examples.full_two_blocks <> Some "b" /\
  Full.selectedId (fst (dispatch (Full.deleteBlock "b") Examples.full_two_blocks))
    <> Full.selectedId Examples.full_two_blocks.
Proof.
  repeat split.
  - simpl. right. left. reflexivity.
  - discriminate.
  - discriminate.
Qed.

(** C1 (amended): in a registry with unique ids, deleting a present id
    removes exactly the block carrying it, keeps every other block in its
    order, and sets the selection to null whichever block was selected;
    nothing else of the state changes and nothing is notified. *)
Theorem C1_deleteBlock_removes_and_clears (id : string) (s : Full.AppState) :
  NoDup (ids (Full.blocks s)) ->
  In id (ids (Full.blocks s)) ->
  exists l1 b l2,
    Full.blocks s = l1 ++ b :: l2 /\ Block.id b = id /\
    dispatch (Full.deleteBlock id) s =
    (Full.mkState (l1 ++ l2) None
                  (Full.showModal s) (Full.promptText s) (Full.isSelecting s)
                  (Full.startPoint s) (Full.selectionPreview s), []) /\
    ~ In id (ids (l1 ++ l2)).
Proof.
  intros Hnd Hin.
  destruct (filter_out_id_split id (Full.blocks s) Hnd Hin) as (l1 & b & l2 & E & Hb & Hf).
  exists l1, b, l2. split; [exact E|]. split; [exact Hb|]. split.
  - rewrite Full_deleteBlock_run, Hf. reflexivity.
  - rewrite E in Hnd. rewrite ids_app in Hnd. simpl in Hnd.
    pose proof (NoDup_remove_2 _ _ _ Hnd) as Hout.
    intros Hx. apply Hout. rewrite Hb, <- ids_app. exact Hx.
Qed.

Lemma C1_deleteBlock_witness :
  exists l1 b l2,
    Full.blocks Examples.full_two_blocks = l1 ++ b :: l2 /\ Block.id b = "b" /\
    dispatch (Full.deleteBlock "b") Examples.full_two_blocks =
    (Full.mkState (l1 ++ l2) None false "" false None None, []) /\
    ~ In "b" (ids (l1 ++ l2)).
Proof.
  apply (C1_deleteBlock_removes_and_clears "b" Examples.full_two_blocks).
  - simpl. repeat constructor; simpl; intuition discriminate.
  - simpl. right. left. reflexivity.
Defined.

(** ** C2: pointer-up *)

Lemma Full_handleMouseUp_accept (uuid : string) (s : Full.AppState) (p : Full.Block) :
  Full.selectionPreview s = Some p ->
  20 < Block.width p -> 20 < Block.height p ->
  dispatch (Full.handleMouseUp uuid) s =
  (Full.mkState
     (Full.blocks s ++
        [Block.mk uuid (Block.x p) (Block.y p) (Block.width p) (Block.height p)
                  (Block.content p)])
     (Some uuid) (Full.showModal s) (Full.promptText s) false None None, []).
Proof.
  intros Hp Hw Hh. unfold dispatch, Full.handleMouseUp. rewrite Hp.
  replace (Block.width p >? 20)%Z with true by (symmetry; apply Z.gtb_lt; exact Hw).
  replace (Block.height p >? 20)%Z with true by (symmetry; apply Z.gtb_lt; exact Hh).
  reflexivity.
Qed.

Lemma Full_handleMouseUp_reject (uuid : string) (s : Full.AppState) :
  (forall p, Full.selectionPreview s = Some p ->
             ~ (20 < Block.width p /\ 20 < Block.height p)) ->
  dispatch (Full.handleMouseUp uuid) s =
  (Full.mkState (Full.blocks s) (Full.selectedId s)
                (Full.showModal s) (Full.promptText s) false None None, []).
Proof.
  intros Hrej. unfold dispatch, Full.handleMouseUp.
  destruct (Full.selectionPreview s) as [p|]; [|reflexivity].
  specialize (Hrej p eq_refl).
  destruct (Z.gtb_spec (Block.width p) 20) as [Hw|Hw]; [|reflexivity].
  destruct (Z.gtb_spec (Block.height p) 20) as [Hh|Hh]; [|reflexivity].
  exfalso. apply Hrej. split; assumption.
Qed.

Lemma Reduced_handleMouseUp_accept (uuid : string) (s : Reduced.AppState) (p : Reduced.Block) :
  Reduced.selection s = Some p ->
  20 < Block.width p -> 20 < Block.height p ->
  dispatch (Reduced.handleMouseUp uuid) s =
  (Reduced.mkState
     (Reduced.blocks s ++
        [Block.mk uuid (Block.x p) (Block.y p) (Block.width p) (Block.height p)
                  (Block.content p)])
     (Reduced.selectedBlockId s) false (Reduced.startPoint s) None, []).
Proof.
  intros Hp Hw Hh. unfold dispatch, Reduced.handleMouseUp. rewrite Hp.
  replace (Block.width p >? 20)%Z with true by (symmetry; apply Z.gtb_lt; exact Hw).
  replace (Block.height p >? 20)%Z with true by (symmetry; apply Z.gtb_lt; exact Hh).
  reflexivity.
Qed.

Lemma Reduced_handleMouseUp_reject (uuid : string) (s : Reduced.AppState) :
  (forall p, Reduced.selection s = Some p ->
             ~ (20 < Block.width p /\ 20 < Block.height p)) ->
  dispatch (Reduced.handleMouseUp uuid) s =
  (Reduced.mkState (Reduced.blocks s) (Reduced.selectedBlockId s)
                   false (Reduced.startPoint s) None, []).
Proof.
  intros Hrej. unfold dispatch, Reduced.handleMouseUp.
  destruct (Reduced.selection s) as [p|]; [|reflexivity].
  specialize (Hrej p eq_refl).
  destruct (Z.gtb_spec (Block.width p) 20) as [Hw|Hw]; [|reflexivity].
  destruct (Z.gtb_spec (Block.height p) 20) as [Hh|Hh]; [|reflexivity].
  exfalso. apply Hrej. split; assumption.
Qed.

(** C2 on the reduced variant, at a 21 x 21 preview pending from the anchor
    (10,10): pointer-up appends the block, but the selection stays null and
    the anchor stays recorded, where the full variant's handler selects the
    new block and clears the anchor.  For every state of the reduced variant
    whose preview exceeds the threshold on both axes, pointer-up leaves
    [selectedBlockId] and [startPoint] as they were.  The last part is the
    full variant after an unfinished drag that left a 30 x 40 preview
    pending: a pointer-down and a pointer-up at one place, with no move in
    between, append that preview as a block. *)
Theorem C2_reduced_pointer_up_commits_without_selecting :
  dispatch (Reduced.handleMouseUp "n") (Examples.reduced_drawing 21 21) =
    (Reduced.mkState [Block.mk "n" 10 10 21 21 None] None false
                     (Some (Point.mk 10 10)) None, []) /\
  Reduced.selectedBlockId
    (fst (dispatch (Reduced.handleMouseUp "n") (Examples.reduced_drawing 21 21)))
    <> Some "n" /\
  dispatch (Full.handleMouseUp "n") (Examples.full_drawing 21 21) =
    (Full.mkState [Block.mk "n" 10 10 21 21 None] (Some "n") false "" false None None, []) /\
  (forall uuid (s : Reduced.AppState) p,
      Reduced.selection s = Some p ->
      20 < Block.width p -> 20 < Block.height p ->
      Reduced.selectedBlockId (fst (dispatch (Reduced.handleMouseUp uuid) s)) =
        Reduced.selectedBlockId s /\
      Reduced.startPoint (fst (dispatch (Reduced.handleMouseUp uuid) s)) =
        Reduced.startPoint s) /\
  Full.blocks
    (Full.run [Full.EvMouseDown Examples.origin (Examples.on_surface 300 300);
               Full.EvMouseUp "n"] (Examples.full_drawing 30 40)) =
    [Block.mk "n" 10 10 30 40 None].
Proof.
  split; [reflexivity|]. split; [discriminate|]. split; [reflexivity|].
  split; [|reflexivity].
  intros uuid s p Hp Hw Hh.
  rewrite (Reduced_handleMouseUp_accept uuid s p Hp Hw Hh). split; reflexivity.
Qed.

Lemma C2_reduced_pointer_up_witness :
  Reduced.selectedBlockId
    (fst (dispatch (Reduced.handleMouseUp "n") (Examples.reduced_drawing 21 21))) = None /\
  Reduced.startPoint
    (fst (dispatch (Reduced.handleMouseUp "n") (Examples.reduced_drawing 21 21))) =
    Some (Point.mk 10 10).
Proof.
  apply (proj1 (proj2 (proj2 (proj2 C2_reduced_pointer_up_commits_without_selecting)))
           "n" (Examples.reduced_drawing 21 21) (Block.mk "temp" 10 10 21 21 None));
    reflexivity.
Defined.

(** ** C3: pointer-down *)

Lemma Full_guard_spec (e : MouseEvent.t) :
  Full_guard e = true <->
  Target.closest_rnd_block (MouseEvent.target e) = true \/
  Target.tagName (MouseEvent.target e) = "BUTTON" \/
  Target.tagName (MouseEvent.target e) = "INPUT".
Proof.
  unfold Full_guard. rewrite !orb_true_iff, !String.eqb_eq. tauto.
Qed.

(** The full variant does what C3 says: a pointer-down on a block, a button
    or an input changes nothing, and any other pointer-down enters the
    drawing state at the surface-local anchor and clears the selection. *)
Lemma Full_handleMouseDown_guarded rect e (s : Full.AppState) :
  (Full_guard e = true ->
   dispatch (Full.handleMouseDown rect e) s = (s, [])) /\
  (Full_guard e = false ->
   dispatch (Full.handleMouseDown rect e) s =
   (Full.mkState (Full.blocks s) None (Full.showModal s) (Full.promptText s)
                 true
                 (Some (Point.mk (MouseEvent.clientX e - DOMRect.left rect)
                                 (MouseEvent.clientY e - DOMRect.top rect)))
                 (Full.selectionPreview s), [])).
Proof.
  unfold Full_guard, dispatch, Full.handleMouseDown.
  split; intros ->; reflexivity.
Qed.

(** C3 on the reduced variant: its pointer-down handler has no guard.  A
    pointer-down on a block, or on a button of the toolbar, starts a draw
    gesture, records the anchor and clears the selection, as one on the
    empty surface does. *)
Theorem C3_reduced_pointer_down_on_block_starts_draw :
  dispatch (Reduced.handleMouseDown Examples.origin (Examples.on_block 150 150))
           Examples.reduced_one_block
  = (Reduced.mkState [Block.mk "a" 100 100 200 150 None] None
                     true (Some (Point.mk 150 150)) None, []) /\
  dispatch (Reduced.handleMouseDown Examples.origin (Examples.on_button 110 70))
           Examples.reduced_one_block
  = (Reduced.mkState [Block.mk "a" 100 100 200 150 None] None
                     true (Some (Point.mk 110 70)) None, []) /\
  (forall rect e (s : Reduced.AppState),
      dispatch (Reduced.handleMouseDown rect e) s =
      (Reduced.mkState (Reduced.blocks s) None true
                       (Some (Point.mk (MouseEvent.clientX e - DOMRect.left rect)
                                       (MouseEvent.clientY e - DOMRect.top rect)))
                       None, [])).
Proof. repeat split. Qed.

(** ** C4: a failed table request *)

(** C4: when the request of [sendTablePrompt] is rejected, the one effect is
    the alert; the state at completion, with its registry and every block's
    content, is returned as it is, whatever the state was when the request
    was sent. *)
Theorem C4_sendTablePrompt_rejected_alerts_only (c s : Full.AppState) :
  complete (Full.sendTablePrompt Full.Rejected) c s =
  (s, [Alert "Backend error generating table"]).
Proof. reflexivity. Qed.

(** ** C5: a late image completion *)

Lemma Full_eta (s : Full.AppState) :
  Full.mkState (Full.blocks s) (Full.selectedId s) (Full.showModal s) (Full.promptText s)
               (Full.isSelecting s) (Full.startPoint s) (Full.selectionPreview s) = s.
Proof. destruct s; reflexivity. Qed.

Lemma Reduced_eta (s : Reduced.AppState) :
  Reduced.mkState (Reduced.blocks s) (Reduced.selectedBlockId s)
                  (Reduced.isSelecting s) (Reduced.startPoint s) (Reduced.selection s) = s.
Proof. destruct s; reflexivity. Qed.

Lemma Full_setBlocksFn_run (f : list Full.Block -> list Full.Block) (c s : Full.AppState) :
  complete (fun _ => Full.setBlocksFn f) c s =
  (Full.mkState (f (Full.blocks s)) (Full.selectedId s) (Full.showModal s) (Full.promptText s)
                (Full.isSelecting s) (Full.startPoint s) (Full.selectionPreview s), []).
Proof. reflexivity. Qed.

Lemma Full_setBlocksFn_id (f : list Full.Block -> list Full.Block) (c s : Full.AppState) :
  f (Full.blocks s) = Full.blocks s ->
  complete (fun _ => Full.setBlocksFn f) c s = (s, []).
Proof. intros E. rewrite Full_setBlocksFn_run, E, Full_eta. reflexivity. Qed.

Lemma Reduced_setBlocksFn_id (f : list Reduced.Block -> list Reduced.Block) (c s : Reduced.AppState) :
  f (Reduced.blocks s) = Reduced.blocks s ->
  complete (fun _ => Reduced.setBlocksFn f) c s = (s, []).
Proof.
  intros E. unfold complete, Reduced.setBlocksFn, modify.
  rewrite E, Reduced_eta. reflexivity.
Qed.

(** C5: the completion of an image read whose target id is no longer in
    the registry returns the state as it is and notifies nothing; in
    general it rewrites, at every index, the block found there according to
    that block's id alone: the content becomes the image if the id is the
    captured one, and the block is kept otherwise. *)
Theorem C5_addImage_onload_by_id (id : string) (result : Json) (c s : Full.AppState) :
  (~ In id (ids (Full.blocks s)) ->
   complete (Full.addImage_onload id result) c s = (s, [])) /\
  (forall (n : nat) b,
      nth_error (Full.blocks s) n = Some b ->
      nth_error (Full.blocks (fst (complete (Full.addImage_onload id result) c s))) n =
      Some (if Block.id b =? id
            then Block.mk (Block.id b) (Block.x b) (Block.y b) (Block.width b)
                          (Block.height b) (Some (Content.mk Full.image result))
            else b)) /\
  List.length (Full.blocks (fst (complete (Full.addImage_onload id result) c s)))
  = List.length (Full.blocks s).
Proof.
  split; [|split].
  - intros Habs. apply Full_setBlocksFn_id. now apply map_by_id_absent.
  - intros n b Hn.
    change (Full.blocks (fst (complete (Full.addImage_onload id result) c s)))
      with (map (fun b => if Block.id b =? id
                          then Block.with_content b (Content.mk Full.image result)
                          else b) (Full.blocks s)).
    unfold Full.Block in *. rewrite nth_error_map, Hn. reflexivity.
  - apply length_map.
Qed.

Lemma C5_addImage_onload_witness :
  complete (Full.addImage_onload "z" (JStr "data:image/png;base64,AAAA"))
           Examples.full_two_blocks Examples.full_two_blocks
  = (Examples.full_two_blocks, []) /\
  nth_error (Full.blocks (fst (complete
      (Full.addImage_onload "b" (JStr "data:image/png;base64,AAAA"))
      Examples.full_two_blocks Examples.full_two_blocks))) 1
  = Some (Block.mk "b" 120 120 200 150
            (Some (Content.mk Full.image (JStr "data:image/png;base64,AAAA")))).
Proof.
  split.
  - apply (C5_addImage_onload_by_id "z" (JStr "data:image/png;base64,AAAA")
             Examples.full_two_blocks Examples.full_two_blocks).
    simpl. intros [H|[H|[]]]; discriminate H.
  - apply (proj1 (proj2 (C5_addImage_onload_by_id "b" (JStr "data:image/png;base64,AAAA")
             Examples.full_two_blocks Examples.full_two_blocks)) 1%nat
             (Block.mk "b" 120 120 200 150 None)).
    reflexivity.
Defined.

(** ** C6: duplicate *)




(** ** C7: set text *)

Lemma falsy_nonempty (t : string) : t <> "" -> falsy (Some t) = false.
Proof. intros Hne. simpl. now apply String.eqb_neq. Qed.

(** C7: with a cancelled ([null]) or empty answer the set-text operation
    returns the state as it is and notifies nothing; with a non-empty
    answer it replaces the content of the blocks carrying the id by the
    text, keeps their other fields and every other block, and touches
    nothing but the registry.  Both variants. *)
Theorem C7_addText_empty_aborts_nonempty_replaces :
  (forall id answer (s : Full.AppState),
      answer = None \/ answer = Some "" ->
      dispatch (Full.addText id answer) s = (s, [])) /\
  (forall id t (s : Full.AppState),
      t <> "" ->
      dispatch (Full.addText id (Some t)) s =
      (Full.mkState
         (map (fun b => if Block.id b =? id
                        then Block.mk (Block.id b) (Block.x b) (Block.y b)
                                      (Block.width b) (Block.height b)
                                      (Some (Content.mk Full.text (JStr t)))
                        else b) (Full.blocks s))
         (Full.selectedId s) (Full.showModal s) (Full.promptText s)
         (Full.isSelecting s) (Full.startPoint s) (Full.selectionPreview s), [])) /\
  (forall id answer (s : Reduced.AppState),
      answer = None \/ answer = Some "" ->
      dispatch (Reduced.addTextToBlock id answer) s = (s, [])) /\
  (forall id t (s : Reduced.AppState),
      t <> "" ->
      dispatch (Reduced.addTextToBlock id (Some t)) s =
      (Reduced.mkState
         (map (fun b => if Block.id b =? id
                        then Block.mk (Block.id b) (Block.x b) (Block.y b)
                                      (Block.width b) (Block.height b)
                                      (Some (Content.mk Reduced.text (JStr t)))
                        else b) (Reduced.blocks s))
         (Reduced.selectedBlockId s)
         (Reduced.isSelecting s) (Reduced.startPoint s) (Reduced.selection s), [])).
Proof.
  split; [|split; [|split]].
  - intros id answer s [->| ->]; reflexivity.
  - intros id t s Hne. unfold dispatch, Full.addText.
    rewrite (falsy_nonempty t Hne). reflexivity.
  - intros id answer s [->| ->]; reflexivity.
  - intros id t s Hne. unfold dispatch, Reduced.addTextToBlock.
    rewrite (falsy_nonempty t Hne). reflexivity.
Qed.

Lemma C7_addText_witness :
  dispatch (Full.addText "a" None) Examples.full_two_blocks = (Examples.full_two_blocks, []) /\
  dispatch (Full.addText "a" (Some "")) Examples.full_two_blocks = (Examples.full_two_blocks, []) /\
  dispatch (Full.addText "a" (Some "hi")) Examples.full_two_blocks =
    (Full.mkState [Block.mk "a" 100 100 200 150 (Some (Content.mk Full.text (JStr "hi")));
                   Block.mk "b" 120 120 200 150 None]
                  (Some "a") false "" false None None, []) /\
  dispatch (Reduced.addTextToBlock "a" (Some "")) Examples.reduced_one_block =
    (Examples.reduced_one_block, []) /\
  dispatch (Reduced.addTextToBlock "a" (Some "hi")) Examples.reduced_one_block =
    (Reduced.mkState [Block.mk "a" 100 100 200 150 (Some (Content.mk Reduced.text (JStr "hi")))]
                     (Some "a") false None None, []).
Proof.
  destruct C7_addText_empty_aborts_nonempty_replaces as (FE & FT & RE & RT).
  split; [|split; [|split; [|split]]].
  - apply (FE "a" None Examples.full_two_blocks). left. reflexivity.
  - apply (FE "a" (Some "") Examples.full_two_blocks). right. reflexivity.
  - apply (FT "a" "hi" Examples.full_two_blocks). discriminate.
  - apply (RE "a" (Some "") Examples.reduced_one_block). right. reflexivity.
  - apply (RT "a" "hi" Examples.reduced_one_block). discriminate.
Defined.

(** ** C8: the preview rectangle *)

Lemma Full_handleMouseMove_drawing rect e (s : Full.AppState) (sp : Point.t) :
  Full.isSelecting s = true ->
  Full.startPoint s = Some sp ->
  dispatch (Full.handleMouseMove rect e) s =
  (Full.mkState (Full.blocks s) (Full.selectedId s) (Full.showModal s) (Full.promptText s)
     (Full.isSelecting s) (Full.startPoint s)
     (Some (Block.mk "temp"
        (Z.min (Point.x sp) (Point.x (getRelativeCoordinates rect e)))
        (Z.min (Point.y sp) (Point.y (getRelativeCoordinates rect e)))
        (Z.abs (Point.x (getRelativeCoordinates rect e) - Point.x sp))
        (Z.abs (Point.y (getRelativeCoordinates rect e) - Point.y sp))
        None)), []).
Proof.
  intros Hsel Hsp. destruct s; simpl in *. subst. reflexivity.
Qed.

Lemma Reduced_handleMouseMove_drawing rect e (s : Reduced.AppState) (sp : Point.t) :
  Reduced.isSelecting s = true ->
  Reduced.startPoint s = Some sp ->
  dispatch (Reduced.handleMouseMove rect e) s =
  (Reduced.mkState (Reduced.blocks s) (Reduced.selectedBlockId s)
     (Reduced.isSelecting s) (Reduced.startPoint s)
     (Some (Block.mk "temp"
        (Z.min (Point.x sp) (Point.x (getRelativeCoordinates rect e)))
        (Z.min (Point.y sp) (Point.y (getRelativeCoordinates rect e)))
        (Z.abs (Point.x (getRelativeCoordinates rect e) - Point.x sp))
        (Z.abs (Point.y (getRelativeCoordinates rect e) - Point.y sp))
        None)), []).
Proof.
  intros Hsel Hsp. destruct s; simpl in *. subst. reflexivity.
Qed.

Lemma preview_symmetric {Tag} (a b c d : Z) :
  @Block.mk Tag "temp" (Z.min a b) (Z.min c d) (Z.abs (b - a)) (Z.abs (d - c)) None =
  Block.mk "temp" (Z.min b a) (Z.min d c) (Z.abs (a - b)) (Z.abs (c - d)) None.
Proof. f_equal; lia. Qed.

(** C8: while a gesture is in progress a pointer-move sets the preview to
    the rectangle whose top-left corner is the component-wise minimum of the
    anchor and the pointer and whose size is the absolute component-wise
    difference, leaving the rest of the state alone; the rectangle is the
    same when anchor and pointer are exchanged; and the gesture that goes
    down at (150,150), moves to (50,80) and is released there appends a
    block at (50,80) of width 100 and height 70.  Both variants. *)
Theorem C8_preview_rectangle_normalised :
  (forall rect e (s : Full.AppState) sp,
      Full.isSelecting s = true ->
      Full.startPoint s = Some sp ->
      dispatch (Full.handleMouseMove rect e) s =
      (Full.mkState (Full.blocks s) (Full.selectedId s) (Full.showModal s) (Full.promptText s)
         (Full.isSelecting s) (Full.startPoint s)
         (Some (Block.mk "temp"
            (Z.min (Point.x sp) (Point.x (getRelativeCoordinates rect e)))
            (Z.min (Point.y sp) (Point.y (getRelativeCoordinates rect e)))
            (Z.abs (Point.x (getRelativeCoordinates rect e) - Point.x sp))
            (Z.abs (Point.y (getRelativeCoordinates rect e) - Point.y sp))
            None)), [])) /\
  (forall rect e (s : Reduced.AppState) sp,
      Reduced.isSelecting s = true ->
      Reduced.startPoint s = Some sp ->
      dispatch (Reduced.handleMouseMove rect e) s =
      (Reduced.mkState (Reduced.blocks s) (Reduced.selectedBlockId s)
         (Reduced.isSelecting s) (Reduced.startPoint s)
         (Some (Block.mk "temp"
            (Z.min (Point.x sp) (Point.x (getRelativeCoordinates rect e)))
            (Z.min (Point.y sp) (Point.y (getRelativeCoordinates rect e)))
            (Z.abs (Point.x (getRelativeCoordinates rect e) - Point.x sp))
            (Z.abs (Point.y (getRelativeCoordinates rect e) - Point.y sp))
            None)), [])) /\
  (forall rect e1 e2 (s : Full.AppState),
      Full_guard e1 = false -> Full_guard e2 = false ->
      Full.selectionPreview (Full.run [Full.EvMouseDown rect e1; Full.EvMouseMove rect e2] s) =
      Full.selectionPreview (Full.run [Full.EvMouseDown rect e2; Full.EvMouseMove rect e1] s)) /\
  (forall rect e1 e2 (s : Reduced.AppState),
      Reduced.selection (Reduced.run [Reduced.EvMouseDown rect e1; Reduced.EvMouseMove rect e2] s) =
      Reduced.selection (Reduced.run [Reduced.EvMouseDown rect e2; Reduced.EvMouseMove rect e1] s)) /\
  (forall rect e1 e2 uuid (s : Full.AppState),
      Full_guard e1 = false ->
      getRelativeCoordinates rect e1 = Point.mk 150 150 ->
      getRelativeCoordinates rect e2 = Point.mk 50 80 ->
      Full.blocks (Full.run [Full.EvMouseDown rect e1; Full.EvMouseMove rect e2;
                             Full.EvMouseUp uuid] s) =
      Full.blocks s ++ [Block.mk uuid 50 80 100 70 None]) /\
  (forall rect e1 e2 uuid (s : Reduced.AppState),
      getRelativeCoordinates rect e1 = Point.mk 150 150 ->
      getRelativeCoordinates rect e2 = Point.mk 50 80 ->
      Reduced.blocks (Reduced.run [Reduced.EvMouseDown rect e1; Reduced.EvMouseMove rect e2;
                                   Reduced.EvMouseUp uuid] s) =
      Reduced.blocks s ++ [Block.mk uuid 50 80 100 70 None]).
Proof.
  split; [exact Full_handleMouseMove_drawing|].
  split; [exact Reduced_handleMouseMove_drawing|].
  split; [|split; [|split]].
  - intros rect e1 e2 s G1 G2. unfold Full_guard in G1, G2.
    simpl. unfold dispatch, Full.handleMouseDown. rewrite G1, G2. simpl.
    f_equal. apply preview_symmetric.
  - intros rect e1 e2 s. simpl. f_equal. apply preview_symmetric.
  - intros rect e1 e2 uuid s G1 H1 H2. unfold Full_guard in G1.
    simpl. unfold dispatch at 3. unfold Full.handleMouseDown. rewrite G1.
    unfold getRelativeCoordinates in H1, H2. injection H1 as H1x H1y. injection H2 as H2x H2y.
    simpl. rewrite H1x, H1y, H2x, H2y. reflexivity.
  - intros rect e1 e2 uuid s H1 H2.
    unfold getRelativeCoordinates in H1, H2. injection H1 as H1x H1y. injection H2 as H2x H2y.
    simpl. rewrite H1x, H1y, H2x, H2y. reflexivity.
Qed.

Lemma C8_preview_rectangle_witness :
  dispatch (Full.handleMouseMove Examples.origin (Examples.on_surface 50 80))
           (Full.mkState [] None false "" true (Some (Point.mk 150 150)) None) =
    (Full.mkState [] None false "" true (Some (Point.mk 150 150))
                  (Some (Block.mk "temp" 50 80 100 70 None)), []) /\
  dispatch (Reduced.handleMouseMove Examples.origin (Examples.on_surface 200 180))
           (Reduced.mkState [] None true (Some (Point.mk 150 150)) None) =
    (Reduced.mkState [] None true (Some (Point.mk 150 150))
                     (Some (Block.mk "temp" 150 150 50 30 None)), []) /\
  Full.selectionPreview
    (Full.run [Full.EvMouseDown Examples.origin (Examples.on_surface 150 150);
               Full.EvMouseMove Examples.origin (Examples.on_surface 50 80)] Full.initial) =
  Full.selectionPreview
    (Full.run [Full.EvMouseDown Examples.origin (Examples.on_surface 50 80);
               Full.EvMouseMove Examples.origin (Examples.on_surface 150 150)] Full.initial) /\
  Full.blocks
    (Full.run [Full.EvMouseDown Examples.origin (Examples.on_surface 150 150);
               Full.EvMouseMove Examples.origin (Examples.on_surface 50 80);
               Full.EvMouseUp "n"] Full.initial) =
    [Block.mk "n" 50 80 100 70 None] /\
  Reduced.blocks
    (Reduced.run [Reduced.EvMouseDown Examples.origin (Examples.on_surface 150 150);
                  Reduced.EvMouseMove Examples.origin (Examples.on_surface 50 80);
                  Reduced.EvMouseUp "n"] Reduced.initial) =
    [Block.mk "n" 50 80 100 70 None].
Proof.
  destruct C8_preview_rectangle_normalised as (FM & RM & FS & _ & FG & RG).
  split; [|split; [|split; [|split]]].
  - apply (FM Examples.origin (Examples.on_surface 50 80)
              (Full.mkState [] None false "" true (Some (Point.mk 150 150)) None)
              (Point.mk 150 150)); reflexivity.
  - apply (RM Examples.origin (Examples.on_surface 200 180)
              (Reduced.mkState [] None true (Some (Point.mk 150 150)) None)
              (Point.mk 150 150)); reflexivity.
  - apply (FS Examples.origin (Examples.on_surface 150 150) (Examples.on_surface 50 80)
              Full.initial); reflexivity.
  - apply (FG Examples.origin (Examples.on_surface 150 150) (Examples.on_surface 50 80)
              "n" Full.initial); reflexivity.
  - apply (RG Examples.origin (Examples.on_surface 150 150) (Examples.on_surface 50 80)
              "n" Reduced.initial); reflexivity.
Defined.

(** ** C10: content operations on an id that is not in the registry *)

(** C10: set-icon and set-text on an id that no block of the registry
    carries return the state as it is and notify nothing, whatever the
    answer to the text prompt.  Both variants. *)
Theorem C10_content_on_absent_id_noop :
  (forall id (s : Full.AppState),
      ~ In id (ids (Full.blocks s)) ->
      dispatch (Full.addIcon id) s = (s, [])) /\
  (forall id answer (s : Full.AppState),
      ~ In id (ids (Full.blocks s)) ->
      dispatch (Full.addText id answer) s = (s, [])) /\
  (forall id (s : Reduced.AppState),
      ~ In id (ids (Reduced.blocks s)) ->
      dispatch (Reduced.addIconToBlock id) s = (s, [])) /\
  (forall id answer (s : Reduced.AppState),
      ~ In id (ids (Reduced.blocks s)) ->
      dispatch (Reduced.addTextToBlock id answer) s = (s, [])).
Proof.
  split; [|split; [|split]].
  - intros id s Habs.
    apply (Full_setBlocksFn_id _ s s). now apply map_by_id_absent.
  - intros id [t|] s Habs; [|reflexivity].
    unfold dispatch, Full.addText.
    destruct (falsy (Some t)); [reflexivity|].
    apply (Full_setBlocksFn_id _ s s). now apply map_by_id_absent.
  - intros id s Habs.
    apply (Reduced_setBlocksFn_id _ s s). now apply map_by_id_absent.
  - intros id [t|] s Habs; [|reflexivity].
    unfold dispatch, Reduced.addTextToBlock.
    destruct (falsy (Some t)); [reflexivity|].
    apply (Reduced_setBlocksFn_id _ s s). now apply map_by_id_absent.
Qed.

Lemma C10_content_on_absent_id_witness :
  dispatch (Full.addIcon "z") Examples.full_two_blocks = (Examples.full_two_blocks, []) /\
  dispatch (Full.addText "z" (Some "hi")) Examples.full_two_blocks
    = (Examples.full_two_blocks, []) /\
  dispatch (Reduced.addIconToBlock "z") Examples.reduced_one_block
    = (Examples.reduced_one_block, []) /\
  dispatch (Reduced.addTextToBlock "z" (Some "hi")) Examples.reduced_one_block
    = (Examples.reduced_one_block, []).
Proof.
  destruct C10_content_on_absent_id_noop as (FI & FT & RI & RT).
  split; [|split; [|split]].
  - apply (FI "z" Examples.full_two_blocks).
    simpl. intros [H|[H|[]]]; discriminate H.
  - apply (FT "z" (Some "hi") Examples.full_two_blocks).
    simpl. intros [H|[H|[]]]; discriminate H.
  - apply (RI "z" Examples.reduced_one_block).
    simpl. intros [H|[]]; discriminate H.
  - apply (RT "z" (Some "hi") Examples.reduced_one_block).
    simpl. intros [H|[]]; discriminate H.
Defined.

(** ** C9: the selection invariant *)

Section WellFormedSteps.
Context {Tag : Type}.
Implicit Types (l : list (Block.t Tag)) (b : Block.t Tag) (sel : option string).

Lemma WellFormed_nil : WellFormed None (@nil (Block.t Tag)).
Proof. apply WellFormed_intro; [constructor | exact I]. Qed.

Lemma WellFormed_deselect sel l : WellFormed sel l -> WellFormed None l.
Proof. intros (Hnd & _). apply WellFormed_intro; [assumption | exact I]. Qed.

Lemma WellFormed_select sel l b :
  WellFormed sel l -> In b l -> WellFormed (Some (Block.id b)) l.
Proof.
  intros (Hnd & _) Hin. apply WellFormed_intro; [assumption|].
  simpl. unfold ids. now apply in_map.
Qed.

Lemma WellFormed_append_selected sel l b :
  WellFormed sel l -> ~ In (Block.id b) (ids l) ->
  WellFormed (Some (Block.id b)) (l ++ [b]).
Proof.
  intros (Hnd & _) Hfresh. apply WellFormed_intro.
  - now apply NoDup_ids_snoc.
  - simpl. rewrite ids_app. apply in_or_app. right. now left.
Qed.

Lemma WellFormed_append sel l b :
  WellFormed sel l -> ~ In (Block.id b) (ids l) ->
  WellFormed sel (l ++ [b]).
Proof.
  intros (Hnd & Hv & _) Hfresh. apply WellFormed_intro.
  - now apply NoDup_ids_snoc.
  - destruct sel as [i|]; simpl in *; [|exact I].
    rewrite ids_app. apply in_or_app. now left.
Qed.

Lemma WellFormed_filter_deselect sel l (p : Block.t Tag -> bool) :
  WellFormed sel l -> WellFormed None (filter p l).
Proof.
  intros (Hnd & _). apply WellFormed_intro; [|exact I].
  now apply NoDup_ids_filter.
Qed.

Lemma WellFormed_map_by_id sel l (p : Block.t Tag -> bool) (f : Block.t Tag -> Block.t Tag) :
  (forall b, Block.id (f b) = Block.id b) ->
  WellFormed sel l ->
  WellFormed sel (map (fun b => if p b then f b else b) l).
Proof.
  intros Hf Hwf. eapply WellFormed_same_ids; [|exact Hwf].
  now apply map_by_id_ids.
Qed.
End WellFormedSteps.

Lemma Full_step_preserves_Inv (ev : Full.Event) (s : Full.AppState) :
  Full.Inv s -> Full.enabled ev s -> Full.Inv (fst (Full.step ev s)).
Proof.
  unfold Full.Inv. intros Hwf Hen.
  destruct ev; simpl in Hen; unfold Full.step.
  - (* createDefaultBlock *)
    apply (WellFormed_append_selected _ _ (Block.mk uuid 100 100 200 150 None) Hwf Hen).
  - (* deleteBlock *)
    apply (WellFormed_filter_deselect _ _ _ Hwf).
  - (* duplicateBlock *)
    apply (WellFormed_append_selected _ _
             (Block.mk uuid (Block.x block + 20) (Block.y block + 20)
                       (Block.width block) (Block.height block) (Block.content block))
             Hwf Hen).
  - (* addIcon *)
    apply (WellFormed_map_by_id _ _ (fun b => Block.id b =? id)); [reflexivity | exact Hwf].
  - (* addText *)
    unfold dispatch, Full.addText.
    destruct (falsy answer); [exact Hwf|].
    destruct answer as [t|]; [|exact Hwf].
    apply (WellFormed_map_by_id _ _ (fun b => Block.id b =? id)); [reflexivity | exact Hwf].
  - (* addImage, on load *)
    apply (WellFormed_map_by_id _ _ (fun b => Block.id b =? id)); [reflexivity | exact Hwf].
  - (* sendTablePrompt, settled *)
    destruct res as [d|]; [|exact Hwf].
    apply (WellFormed_map_by_id _ _ (fun b => id_is (Block.id b) (Full.selectedId closure)));
      [reflexivity | exact Hwf].
  - (* handleMouseDown *)
    unfold dispatch, Full.handleMouseDown.
    destruct (Target.closest_rnd_block (MouseEvent.target e)
              || (Target.tagName (MouseEvent.target e) =? "BUTTON")
              || (Target.tagName (MouseEvent.target e) =? "INPUT")); [exact Hwf|].
    apply (WellFormed_deselect _ _ Hwf).
  - (* handleMouseMove *)
    unfold dispatch, Full.handleMouseMove.
    destruct (Full.isSelecting s); [|exact Hwf].
    destruct (Full.startPoint s); exact Hwf.
  - (* handleMouseUp *)
    unfold dispatch, Full.handleMouseUp.
    destruct (Full.selectionPreview s) as [p|]; [|exact Hwf].
    destruct ((Block.width p >? 20)%Z && (Block.height p >? 20)%Z); [|exact Hwf].
    apply (WellFormed_append_selected _ _ (Block.with_id p uuid) Hwf Hen).
  - (* onClick *)
    apply (WellFormed_select _ _ _ Hwf Hen).
  - (* onDragStop *)
    apply (WellFormed_map_by_id _ _ (fun b => Block.id b =? id)); [reflexivity | exact Hwf].
  - (* onResizeStop *)
    apply (WellFormed_map_by_id _ _ (fun b => Block.id b =? id)); [reflexivity | exact Hwf].
  - exact Hwf.
  - exact Hwf.
Qed.

Lemma Reduced_step_preserves_Inv (ev : Reduced.Event) (s : Reduced.AppState) :
  Reduced.Inv s -> Reduced.enabled ev s -> Reduced.Inv (fst (Reduced.step ev s)).
Proof.
  unfold Reduced.Inv. intros Hwf Hen.
  destruct ev; simpl in Hen; unfold Reduced.step.
  - apply (WellFormed_deselect _ _ Hwf).
  - unfold dispatch, Reduced.handleMouseMove.
    destruct (Reduced.isSelecting s); [|exact Hwf].
    destruct (Reduced.startPoint s); exact Hwf.
  - unfold dispatch, Reduced.handleMouseUp.
    destruct (Reduced.selection s) as [p|]; [|exact Hwf].
    destruct ((Block.width p >? 20)%Z && (Block.height p >? 20)%Z); [|exact Hwf].
    apply (WellFormed_append _ _ (Block.with_id p uuid) Hwf Hen).
  - apply (WellFormed_map_by_id _ _ (fun b => Block.id b =? id)); [reflexivity | exact Hwf].
  - unfold dispatch, Reduced.addTextToBlock.
    destruct (falsy answer); [exact Hwf|].
    destruct answer as [t|]; [|exact Hwf].
    apply (WellFormed_map_by_id _ _ (fun b => Block.id b =? id)); [reflexivity | exact Hwf].
  - apply (WellFormed_select _ _ _ Hwf Hen).
Qed.

Section SelectionValidSteps.
Context {Tag : Type}.
Implicit Types (l : list (Block.t Tag)) (b : Block.t Tag) (sel : option string).

Lemma selection_valid_select l b : In b l -> selection_valid (Some (Block.id b)) l.
Proof. intros Hin. simpl. unfold ids. now apply in_map. Qed.

Lemma selection_valid_append_selected l b :
  selection_valid (Some (Block.id b)) (l ++ [b]).
Proof. simpl. rewrite ids_app. apply in_or_app. right. now left. Qed.

Lemma selection_valid_append sel l b :
  selection_valid sel l -> selection_valid sel (l ++ [b]).
Proof.
  destruct sel as [i|]; simpl; [|trivial].
  intros Hin. rewrite ids_app. apply in_or_app. now left.
Qed.

Lemma selection_valid_map_by_id sel l (p : Block.t Tag -> bool) (f : Block.t Tag -> Block.t Tag) :
  (forall b, Block.id (f b) = Block.id b) ->
  selection_valid sel l ->
  selection_valid sel (map (fun b => if p b then f b else b) l).
Proof.
  intros Hf. destruct sel as [i|]; simpl; [|trivial].
  now rewrite (map_by_id_ids f p l Hf).
Qed.
End SelectionValidSteps.

Lemma Full_step_preserves_selection_valid (ev : Full.Event) (s : Full.AppState) :
  selection_valid (Full.selectedId s) (Full.blocks s) ->
  Full.delivered ev s ->
  selection_valid (Full.selectedId (fst (Full.step ev s))) (Full.blocks (fst (Full.step ev s))).
Proof.
  intros Hv Hen.
  destruct ev; simpl in Hen; unfold Full.step.
  - apply (selection_valid_append_selected _ (Block.mk uuid 100 100 200 150 None)).
  - exact I.
  - apply (selection_valid_append_selected _
             (Block.mk uuid (Block.x block + 20) (Block.y block + 20)
                       (Block.width block) (Block.height block) (Block.content block))).
  - apply (selection_valid_map_by_id _ _ (fun b => Block.id b =? id)); [reflexivity | exact Hv].
  - unfold dispatch, Full.addText.
    destruct (falsy answer); [exact Hv|].
    destruct answer as [t|]; [|exact Hv].
    apply (selection_valid_map_by_id _ _ (fun b => Block.id b =? id)); [reflexivity | exact Hv].
  - apply (selection_valid_map_by_id _ _ (fun b => Block.id b =? id)); [reflexivity | exact Hv].
  - destruct res as [d|]; [|exact Hv].
    apply (selection_valid_map_by_id _ _
             (fun b => id_is (Block.id b) (Full.selectedId closure)));
      [reflexivity | exact Hv].
  - unfold dispatch, Full.handleMouseDown.
    destruct (Target.closest_rnd_block (MouseEvent.target e)
              || (Target.tagName (MouseEvent.target e) =? "BUTTON")
              || (Target.tagName (MouseEvent.target e) =? "INPUT")); [exact Hv | exact I].
  - unfold dispatch, Full.handleMouseMove.
    destruct (Full.isSelecting s); [|exact Hv].
    destruct (Full.startPoint s); exact Hv.
  - unfold dispatch, Full.handleMouseUp.
    destruct (Full.selectionPreview s) as [p|]; [|exact Hv].
    destruct ((Block.width p >? 20)%Z && (Block.height p >? 20)%Z); [|exact Hv].
    apply (selection_valid_append_selected _ (Block.with_id p uuid)).
  - apply (selection_valid_select _ _ Hen).
  - apply (selection_valid_map_by_id _ _ (fun b => Block.id b =? id)); [reflexivity | exact Hv].
  - apply (selection_valid_map_by_id _ _ (fun b => Block.id b =? id)); [reflexivity | exact Hv].
  - exact Hv.
  - exact Hv.
Qed.

Lemma Reduced_step_preserves_selection_valid (ev : Reduced.Event) (s : Reduced.AppState) :
  selection_valid (Reduced.selectedBlockId s) (Reduced.blocks s) ->
  Reduced.delivered ev s ->
  selection_valid (Reduced.selectedBlockId (fst (Reduced.step ev s)))
                  (Reduced.blocks (fst (Reduced.step ev s))).
Proof.
  intros Hv Hen.
  destruct ev; simpl in Hen; unfold Reduced.step.
  - exact I.
  - unfold dispatch, Reduced.handleMouseMove.
    destruct (Reduced.isSelecting s); [|exact Hv].
    destruct (Reduced.startPoint s); exact Hv.
  - unfold dispatch, Reduced.handleMouseUp.
    destruct (Reduced.selection s) as [p|]; [|exact Hv].
    destruct ((Block.width p >? 20)%Z && (Block.height p >? 20)%Z); [|exact Hv].
    apply (selection_valid_append _ _ (Block.with_id p uuid) Hv).
  - apply (selection_valid_map_by_id _ _ (fun b => Block.id b =? id)); [reflexivity | exact Hv].
  - unfold dispatch, Reduced.addTextToBlock.
    destruct (falsy answer); [exact Hv|].
    destruct answer as [t|]; [|exact Hv].
    apply (selection_valid_map_by_id _ _ (fun b => Block.id b =? id)); [reflexivity | exact Hv].
  - apply (selection_valid_select _ _ Hen).
Qed.

(** C9: the selection invariant (the selected id is null or the id of a
    block of the registry, and at most one block is rendered as selected),
    together with the uniqueness of ids it rests on, holds in the initial
    state of both variants and is preserved by every event: creating the
    default block, the pointer handlers, selecting by click, delete,
    duplicate, every content assignment, drag and resize, and the
    asynchronous completions whatever the state they were started in.  The
    environment is assumed to generate ids that are not in use and to
    deliver clicks from rendered blocks only; that the selected id is null
    or present in the registry is preserved whatever the generated ids
    are. *)
Theorem C9_selection_invariant :
  (Full.Inv Full.initial /\
   (forall ev s, Full.Inv s -> Full.enabled ev s -> Full.Inv (fst (Full.step ev s))) /\
   (forall ev s,
       selection_valid (Full.selectedId s) (Full.blocks s) ->
       Full.delivered ev s ->
       selection_valid (Full.selectedId (fst (Full.step ev s)))
                       (Full.blocks (fst (Full.step ev s))))) /\
  (Reduced.Inv Reduced.initial /\
   (forall ev s, Reduced.Inv s -> Reduced.enabled ev s -> Reduced.Inv (fst (Reduced.step ev s))) /\
   (forall ev s,
       selection_valid (Reduced.selectedBlockId s) (Reduced.blocks s) ->
       Reduced.delivered ev s ->
       selection_valid (Reduced.selectedBlockId (fst (Reduced.step ev s)))
                       (Reduced.blocks (fst (Reduced.step ev s))))).
Proof.
  split; (split; [|split]).
  - exact (@WellFormed_nil Full.ContentType).
  - exact Full_step_preserves_Inv.
  - exact Full_step_preserves_selection_valid.
  - exact (@WellFormed_nil Reduced.ContentType).
  - exact Reduced_step_preserves_Inv.
  - exact Reduced_step_preserves_selection_valid.
Qed.

Lemma C9_selection_invariant_witness :
  Full.Inv (fst (Full.step (Full.EvDuplicateBlock "c" (Block.mk "a" 100 100 200 150 None))
                           Examples.full_two_blocks)) /\
  Full.Inv (fst (Full.step (Full.EvDeleteBlock "a") Examples.full_two_blocks)) /\
  selection_valid (Some "b") (Full.blocks Examples.full_two_blocks) /\
  Reduced.Inv (fst (Reduced.step (Reduced.EvMouseUp "n") (Examples.reduced_drawing 21 21))) /\
  selection_valid (Some "a") (Reduced.blocks Examples.reduced_one_block).
Proof.
  destruct C9_selection_invariant as ((_ & HF & VF) & (_ & HR & VR)).
  assert (selection_valid (Full.selectedId Examples.full_two_blocks)
                          (Full.blocks Examples.full_two_blocks)) as Hv.
  { simpl. left. reflexivity. }
  assert (Full.Inv Examples.full_two_blocks) as Hwf.
  { apply WellFormed_intro; [|exact Hv].
    simpl. repeat constructor; simpl; intuition discriminate. }
  split; [|split; [|split; [|split]]].
  - apply (HF (Full.EvDuplicateBlock "c" (Block.mk "a" 100 100 200 150 None))
              Examples.full_two_blocks Hwf).
    simpl. intros [H|[H|[]]]; discriminate H.
  - apply (HF (Full.EvDeleteBlock "a") Examples.full_two_blocks Hwf). exact I.
  - apply (VF (Full.EvClick (Block.mk "b" 120 120 200 150 None))
              Examples.full_two_blocks Hv).
    simpl. right. left. reflexivity.
  - apply (HR (Reduced.EvMouseUp "n") (Examples.reduced_drawing 21 21)).
    + exact (@WellFormed_nil Reduced.ContentType).
    + simpl. intros [].
  - apply (VR (Reduced.EvClick (Block.mk "a" 100 100 200 150 None))
              Examples.reduced_one_block).
    + simpl. left. reflexivity.
    + simpl. left. reflexivity.
Defined.


(** * Further properties of the handlers *)

(** ** Geometry of the preview *)

(** X2: during a gesture the preview set by a pointer-move has non-negative
    width and height, and its corner lies at or before both the anchor and
    the pointer on each axis.  Both variants. *)
Theorem X2_preview_extents_nonnegative_corner_not_after :
  (forall rect e (s : Full.AppState) sp,
      Full.isSelecting s = true ->
      Full.startPoint s = Some sp ->
      exists p,
        Full.selectionPreview (fst (dispatch (Full.handleMouseMove rect e) s)) = Some p /\
        0 <= Block.width p /\ 0 <= Block.height p /\
        Block.x p <= Point.x sp /\
        Block.x p <= Point.x (getRelativeCoordinates rect e) /\
        Block.y p <= Point.y sp /\
        Block.y p <= Point.y (getRelativeCoordinates rect e)) /\
  (forall rect e (s : Reduced.AppState) sp,
      Reduced.isSelecting s = true ->
      Reduced.startPoint s = Some sp ->
      exists p,
        Reduced.selection (fst (dispatch (Reduced.handleMouseMove rect e) s)) = Some p /\
        0 <= Block.width p /\ 0 <= Block.height p /\
        Block.x p <= Point.x sp /\
        Block.x p <= Point.x (getRelativeCoordinates rect e) /\
        Block.y p <= Point.y sp /\
        Block.y p <= Point.y (getRelativeCoordinates rect e)).
Proof.
  split; intros rect e s sp Hsel Hsp.
  - rewrite (Full_handleMouseMove_drawing rect e s sp Hsel Hsp). simpl.
    eexists. split; [reflexivity|]. simpl.
    repeat split;
      auto using Z.abs_nonneg, Z.le_min_l, Z.le_min_r.
  - rewrite (Reduced_handleMouseMove_drawing rect e s sp Hsel Hsp). simpl.
    eexists. split; [reflexivity|]. simpl.
    repeat split;
      auto using Z.abs_nonneg, Z.le_min_l, Z.le_min_r.
Qed.

Lemma X2_preview_extents_witness :
  (exists p,
    Full.selectionPreview
      (fst (dispatch (Full.handleMouseMove Examples.origin (Examples.on_surface 50 180))
                     (Full.mkState [] None false "" true (Some (Point.mk 150 150)) None)))
    = Some p /\
    0 <= Block.width p /\ 0 <= Block.height p /\ Block.x p <= 50 /\ Block.y p <= 150) /\
  (exists p,
    Reduced.selection
      (fst (dispatch (Reduced.handleMouseMove Examples.origin (Examples.on_surface 50 180))
                     (Reduced.mkState [] None true (Some (Point.mk 150 150)) None)))
    = Some p /\
    0 <= Block.width p /\ 0 <= Block.height p /\ Block.x p <= 50 /\ Block.y p <= 150).
Proof.
  split.
  - destruct (proj1 X2_preview_extents_nonnegative_corner_not_after
                Examples.origin (Examples.on_surface 50 180)
                (Full.mkState [] None false "" true (Some (Point.mk 150 150)) None)
                (Point.mk 150 150) eq_refl eq_refl)
      as (p & Hp & Hw & Hh & _ & Hx & Hy & _).
    exists p. repeat split; assumption.
  - destruct (proj2 X2_preview_extents_nonnegative_corner_not_after
                Examples.origin (Examples.on_surface 50 180)
                (Reduced.mkState [] None true (Some (Point.mk 150 150)) None)
                (Point.mk 150 150) eq_refl eq_refl)
      as (p & Hp & Hw & Hh & _ & Hx & Hy & _).
    exists p. repeat split; assumption.
Defined.

(** ** Pointer-moves *)

Lemma Full_handleMouseMove_idle rect e (s : Full.AppState) :
  Full.isSelecting s = false \/ Full.startPoint s = None ->
  dispatch (Full.handleMouseMove rect e) s = (s, []).
Proof.
  intros H. destruct s as [bl sel sm pt sg sp pv]; simpl in H.
  destruct H as [-> | ->]; [reflexivity|]. destruct sg; reflexivity.
Qed.

Lemma Reduced_handleMouseMove_idle rect e (s : Reduced.AppState) :
  Reduced.isSelecting s = false \/ Reduced.startPoint s = None ->
  dispatch (Reduced.handleMouseMove rect e) s = (s, []).
Proof.
  intros H. destruct s as [bl sel sg sp pv]; simpl in H.
  destruct H as [-> | ->]; [reflexivity|]. destruct sg; reflexivity.
Qed.

Lemma Full_handleMouseUp_idle uuid (s : Full.AppState) :
  Full.isSelecting (fst (dispatch (Full.handleMouseUp uuid) s)) = false.
Proof.
  unfold dispatch, Full.handleMouseUp.
  destruct (Full.selectionPreview s) as [p|]; [|reflexivity].
  destruct ((Block.width p >? 20)%Z && (Block.height p >? 20)%Z); reflexivity.
Qed.

Lemma Reduced_handleMouseUp_idle uuid (s : Reduced.AppState) :
  Reduced.isSelecting (fst (dispatch (Reduced.handleMouseUp uuid) s)) = false.
Proof.
  unfold dispatch, Reduced.handleMouseUp.
  destruct (Reduced.selection s) as [p|]; [|reflexivity].
  destruct ((Block.width p >? 20)%Z && (Block.height p >? 20)%Z); reflexivity.
Qed.

(** X3: a pointer-move changes nothing unless a gesture is in progress (the
    drawing flag is set and an anchor is recorded); in particular every
    pointer-move that follows a pointer-up is ignored until the next
    pointer-down.  Both variants. *)
Theorem X3_pointer_move_outside_gesture_is_ignored :
  (forall rect e (s : Full.AppState),
      Full.isSelecting s = false \/ Full.startPoint s = None ->
      dispatch (Full.handleMouseMove rect e) s = (s, [])) /\
  (forall rect e uuid (s : Full.AppState),
      dispatch (Full.handleMouseMove rect e) (fst (dispatch (Full.handleMouseUp uuid) s)) =
      (fst (dispatch (Full.handleMouseUp uuid) s), [])) /\
  (forall rect e (s : Reduced.AppState),
      Reduced.isSelecting s = false \/ Reduced.startPoint s = None ->
      dispatch (Reduced.handleMouseMove rect e) s = (s, [])) /\
  (forall rect e uuid (s : Reduced.AppState),
      dispatch (Reduced.handleMouseMove rect e) (fst (dispatch (Reduced.handleMouseUp uuid) s)) =
      (fst (dispatch (Reduced.handleMouseUp uuid) s), [])).
Proof.
  split; [exact Full_handleMouseMove_idle|].
  split; [|split; [exact Reduced_handleMouseMove_idle|]].
  - intros rect e uuid s. apply Full_handleMouseMove_idle. left.
    apply Full_handleMouseUp_idle.
  - intros rect e uuid s. apply Reduced_handleMouseMove_idle. left.
    apply Reduced_handleMouseUp_idle.
Qed.

Lemma X3_pointer_move_witness :
  dispatch (Full.handleMouseMove Examples.origin (Examples.on_surface 50 80))
           Examples.full_two_blocks = (Examples.full_two_blocks, []) /\
  dispatch (Reduced.handleMouseMove Examples.origin (Examples.on_surface 50 80))
           Examples.reduced_one_block = (Examples.reduced_one_block, []).
Proof.
  destruct X3_pointer_move_outside_gesture_is_ignored as (F & _ & R & _).
  split.
  - apply (F Examples.origin (Examples.on_surface 50 80) Examples.full_two_blocks).
    left. reflexivity.
  - apply (R Examples.origin (Examples.on_surface 50 80) Examples.reduced_one_block).
    right. reflexivity.
Defined.

(** X4: of two consecutive pointer-moves only the second counts: the
    preview is rebuilt from the anchor and the latest pointer position, never
    from the previous preview.  Both variants, any state. *)
Theorem X4_last_pointer_move_wins :
  (forall rect e rect' e' (s : Full.AppState),
      dispatch (Full.handleMouseMove rect' e')
               (fst (dispatch (Full.handleMouseMove rect e) s)) =
      dispatch (Full.handleMouseMove rect' e') s) /\
  (forall rect e rect' e' (s : Reduced.AppState),
      dispatch (Reduced.handleMouseMove rect' e')
               (fst (dispatch (Reduced.handleMouseMove rect e) s)) =
      dispatch (Reduced.handleMouseMove rect' e') s).
Proof.
  split; intros rect e rect' e' s.
  - destruct s as [bl sel sm pt sg sp pv].
    destruct sg; [|reflexivity]. destruct sp; reflexivity.
  - destruct s as [bl sel sg sp pv].
    destruct sg; [|reflexivity]. destruct sp; reflexivity.
Qed.

(** ** Whole gestures *)

Lemma Full_down_then_move rect e1 e2 (s : Full.AppState) :
  Full_guard e1 = false ->
  fst (dispatch (Full.handleMouseMove rect e2)
                (fst (dispatch (Full.handleMouseDown rect e1) s))) =
  Full.mkState (Full.blocks s) None (Full.showModal s) (Full.promptText s) true
    (Some (getRelativeCoordinates rect e1))
    (Some (Block.mk "temp"
       (Z.min (Point.x (getRelativeCoordinates rect e1)) (Point.x (getRelativeCoordinates rect e2)))
       (Z.min (Point.y (getRelativeCoordinates rect e1)) (Point.y (getRelativeCoordinates rect e2)))
       (Z.abs (Point.x (getRelativeCoordinates rect e2) - Point.x (getRelativeCoordinates rect e1)))
       (Z.abs (Point.y (getRelativeCoordinates rect e2) - Point.y (getRelativeCoordinates rect e1)))
       None)).
Proof.
  intros G. unfold Full_guard in G.
  unfold dispatch at 2. unfold Full.handleMouseDown. rewrite G. reflexivity.
Qed.

Lemma Reduced_down_then_move rect e1 e2 (s : Reduced.AppState) :
  fst (dispatch (Reduced.handleMouseMove rect e2)
                (fst (dispatch (Reduced.handleMouseDown rect e1) s))) =
  Reduced.mkState (Reduced.blocks s) None true
    (Some (getRelativeCoordinates rect e1))
    (Some (Block.mk "temp"
       (Z.min (Point.x (getRelativeCoordinates rect e1)) (Point.x (getRelativeCoordinates rect e2)))
       (Z.min (Point.y (getRelativeCoordinates rect e1)) (Point.y (getRelativeCoordinates rect e2)))
       (Z.abs (Point.x (getRelativeCoordinates rect e2) - Point.x (getRelativeCoordinates rect e1)))
       (Z.abs (Point.y (getRelativeCoordinates rect e2) - Point.y (getRelativeCoordinates rect e1)))
       None)).
Proof. reflexivity. Qed.

(** X5: a whole gesture (pointer-down on a target that is not ignored,
    pointer-move, pointer-up) from any state appends one block exactly when
    the pointer ends more than 20 away from the anchor on both axes; the
    block is the normalised rectangle between the anchor and the last pointer
    position, without content.  In the full variant the new block is then
    selected; when the gesture is too small the registry is unchanged and
    the selection has been cleared by the pointer-down.  In the reduced variant
    the selection is null in both cases and the anchor is kept. *)
Theorem X5_gesture_commits_rectangle_between_anchor_and_release :
  (forall rect e1 e2 uuid (s : Full.AppState),
      Full_guard e1 = false ->
      20 < Z.abs (Point.x (getRelativeCoordinates rect e2) - Point.x (getRelativeCoordinates rect e1)) ->
      20 < Z.abs (Point.y (getRelativeCoordinates rect e2) - Point.y (getRelativeCoordinates rect e1)) ->
      Full.run [Full.EvMouseDown rect e1; Full.EvMouseMove rect e2; Full.EvMouseUp uuid] s =
      Full.mkState
        (Full.blocks s ++
         [Block.mk uuid
            (Z.min (Point.x (getRelativeCoordinates rect e1)) (Point.x (getRelativeCoordinates rect e2)))
            (Z.min (Point.y (getRelativeCoordinates rect e1)) (Point.y (getRelativeCoordinates rect e2)))
            (Z.abs (Point.x (getRelativeCoordinates rect e2) - Point.x (getRelativeCoordinates rect e1)))
            (Z.abs (Point.y (getRelativeCoordinates rect e2) - Point.y (getRelativeCoordinates rect e1)))
            None])
        (Some uuid) (Full.showModal s) (Full.promptText s) false None None) /\
  (forall rect e1 e2 uuid (s : Full.AppState),
      Full_guard e1 = false ->
      ~ (20 < Z.abs (Point.x (getRelativeCoordinates rect e2) - Point.x (getRelativeCoordinates rect e1)) /\
         20 < Z.abs (Point.y (getRelativeCoordinates rect e2) - Point.y (getRelativeCoordinates rect e1))) ->
      Full.run [Full.EvMouseDown rect e1; Full.EvMouseMove rect e2; Full.EvMouseUp uuid] s =
      Full.mkState (Full.blocks s) None (Full.showModal s) (Full.promptText s) false None None) /\
  (forall rect e1 e2 uuid (s : Reduced.AppState),
      20 < Z.abs (Point.x (getRelativeCoordinates rect e2) - Point.x (getRelativeCoordinates rect e1)) ->
      20 < Z.abs (Point.y (getRelativeCoordinates rect e2) - Point.y (getRelativeCoordinates rect e1)) ->
      Reduced.run [Reduced.EvMouseDown rect e1; Reduced.EvMouseMove rect e2;
                   Reduced.EvMouseUp uuid] s =
      Reduced.mkState
        (Reduced.blocks s ++
         [Block.mk uuid
            (Z.min (Point.x (getRelativeCoordinates rect e1)) (Point.x (getRelativeCoordinates rect e2)))
            (Z.min (Point.y (getRelativeCoordinates rect e1)) (Point.y (getRelativeCoordinates rect e2)))
            (Z.abs (Point.x (getRelativeCoordinates rect e2) - Point.x (getRelativeCoordinates rect e1)))
            (Z.abs (Point.y (getRelativeCoordinates rect e2) - Point.y (getRelativeCoordinates rect e1)))
            None])
        None false (Some (getRelativeCoordinates rect e1)) None) /\
  (forall rect e1 e2 uuid (s : Reduced.AppState),
      ~ (20 < Z.abs (Point.x (getRelativeCoordinates rect e2) - Point.x (getRelativeCoordinates rect e1)) /\
         20 < Z.abs (Point.y (getRelativeCoordinates rect e2) - Point.y (getRelativeCoordinates rect e1))) ->
      Reduced.run [Reduced.EvMouseDown rect e1; Reduced.EvMouseMove rect e2;
                   Reduced.EvMouseUp uuid] s =
      Reduced.mkState (Reduced.blocks s) None false (Some (getRelativeCoordinates rect e1)) None).
Proof.
  split; [|split; [|split]].
  - intros rect e1 e2 uuid s G Hx Hy.
    change (Full.run [Full.EvMouseDown rect e1; Full.EvMouseMove rect e2; Full.EvMouseUp uuid] s)
      with (fst (dispatch (Full.handleMouseUp uuid)
                   (fst (dispatch (Full.handleMouseMove rect e2)
                           (fst (dispatch (Full.handleMouseDown rect e1) s)))))).
    rewrite (Full_down_then_move rect e1 e2 s G).
    erewrite Full_handleMouseUp_accept; [ | reflexivity | exact Hx | exact Hy ]. reflexivity.
  - intros rect e1 e2 uuid s G Hrej.
    change (Full.run [Full.EvMouseDown rect e1; Full.EvMouseMove rect e2; Full.EvMouseUp uuid] s)
      with (fst (dispatch (Full.handleMouseUp uuid)
                   (fst (dispatch (Full.handleMouseMove rect e2)
                           (fst (dispatch (Full.handleMouseDown rect e1) s)))))).
    rewrite (Full_down_then_move rect e1 e2 s G).
    rewrite Full_handleMouseUp_reject; [reflexivity|].
    intros p E. injection E as <-. exact Hrej.
  - intros rect e1 e2 uuid s Hx Hy.
    change (Reduced.run [Reduced.EvMouseDown rect e1; Reduced.EvMouseMove rect e2;
                         Reduced.EvMouseUp uuid] s)
      with (fst (dispatch (Reduced.handleMouseUp uuid)
                   (fst (dispatch (Reduced.handleMouseMove rect e2)
                           (fst (dispatch (Reduced.handleMouseDown rect e1) s)))))).
    rewrite (Reduced_down_then_move rect e1 e2 s).
    erewrite Reduced_handleMouseUp_accept; [ | reflexivity | exact Hx | exact Hy ]. reflexivity.
  - intros rect e1 e2 uuid s Hrej.
    change (Reduced.run [Reduced.EvMouseDown rect e1; Reduced.EvMouseMove rect e2;
                         Reduced.EvMouseUp uuid] s)
      with (fst (dispatch (Reduced.handleMouseUp uuid)
                   (fst (dispatch (Reduced.handleMouseMove rect e2)
                           (fst (dispatch (Reduced.handleMouseDown rect e1) s)))))).
    rewrite (Reduced_down_then_move rect e1 e2 s).
    rewrite Reduced_handleMouseUp_reject; [reflexivity|].
    intros p E. injection E as <-. exact Hrej.
Qed.

Lemma X5_gesture_witness :
  Full.run [Full.EvMouseDown Examples.origin (Examples.on_surface 10 10);
            Full.EvMouseMove Examples.origin (Examples.on_surface 31 40);
            Full.EvMouseUp "n"] Examples.full_two_blocks =
    Full.mkState (Full.blocks Examples.full_two_blocks ++ [Block.mk "n" 10 10 21 30 None])
                 (Some "n") false "" false None None /\
  Full.run [Full.EvMouseDown Examples.origin (Examples.on_surface 10 10);
            Full.EvMouseMove Examples.origin (Examples.on_surface 30 40);
            Full.EvMouseUp "n"] Examples.full_two_blocks =
    Full.mkState (Full.blocks Examples.full_two_blocks) None false "" false None None /\
  Reduced.run [Reduced.EvMouseDown Examples.origin (Examples.on_surface 40 40);
               Reduced.EvMouseMove Examples.origin (Examples.on_surface 10 10);
               Reduced.EvMouseUp "n"] Examples.reduced_one_block =
    Reduced.mkState (Reduced.blocks Examples.reduced_one_block ++ [Block.mk "n" 10 10 30 30 None])
                    None false (Some (Point.mk 40 40)) None /\
  Reduced.run [Reduced.EvMouseDown Examples.origin (Examples.on_surface 40 40);
               Reduced.EvMouseMove Examples.origin (Examples.on_surface 40 10);
               Reduced.EvMouseUp "n"] Examples.reduced_one_block =
    Reduced.mkState (Reduced.blocks Examples.reduced_one_block) None false
                    (Some (Point.mk 40 40)) None.
Proof.
  destruct X5_gesture_commits_rectangle_between_anchor_and_release as (FA & FR & RA & RR).
  split; [|split; [|split]].
  - apply (FA Examples.origin (Examples.on_surface 10 10) (Examples.on_surface 31 40)
              "n" Examples.full_two_blocks); reflexivity.
  - apply (FR Examples.origin (Examples.on_surface 10 10) (Examples.on_surface 30 40)
              "n" Examples.full_two_blocks); [reflexivity|].
    simpl. lia.
  - apply (RA Examples.origin (Examples.on_surface 40 40) (Examples.on_surface 10 10)
              "n" Examples.reduced_one_block); reflexivity.
  - apply (RR Examples.origin (Examples.on_surface 40 40) (Examples.on_surface 40 10)
              "n" Examples.reduced_one_block).
    simpl. lia.
Defined.

(** X6: a second pointer-down in the middle of a gesture (no pointer-up in
    between).  In the full variant the pointer-down leaves a pending preview
    in place, so the following pointer-up ends in the very state the first
    drag alone would have ended in: the rectangle of the first drag is
    committed if it is large enough.  In the reduced variant the pointer-down
    discards the preview, and the following pointer-up adds no block. *)
Theorem X6_second_pointer_down_during_gesture :
  (forall rect e1 e2 e3 uuid (s : Full.AppState),
      Full_guard e1 = false ->
      Full.run [Full.EvMouseDown rect e1; Full.EvMouseMove rect e2;
                Full.EvMouseDown rect e3; Full.EvMouseUp uuid] s =
      Full.run [Full.EvMouseDown rect e1; Full.EvMouseMove rect e2;
                Full.EvMouseUp uuid] s) /\
  (forall rect e1 e2 e3 uuid (s : Reduced.AppState),
      Reduced.blocks
        (Reduced.run [Reduced.EvMouseDown rect e1; Reduced.EvMouseMove rect e2;
                      Reduced.EvMouseDown rect e3; Reduced.EvMouseUp uuid] s) =
      Reduced.blocks s).
Proof.
  split.
  - intros rect e1 e2 e3 uuid s G.
    change (Full.run [Full.EvMouseDown rect e1; Full.EvMouseMove rect e2;
                      Full.EvMouseDown rect e3; Full.EvMouseUp uuid] s)
      with (fst (dispatch (Full.handleMouseUp uuid)
                   (fst (dispatch (Full.handleMouseDown rect e3)
                      (fst (dispatch (Full.handleMouseMove rect e2)
                              (fst (dispatch (Full.handleMouseDown rect e1) s)))))))).
    change (Full.run [Full.EvMouseDown rect e1; Full.EvMouseMove rect e2; Full.EvMouseUp uuid] s)
      with (fst (dispatch (Full.handleMouseUp uuid)
                   (fst (dispatch (Full.handleMouseMove rect e2)
                           (fst (dispatch (Full.handleMouseDown rect e1) s)))))).
    rewrite (Full_down_then_move rect e1 e2 s G).
    unfold dispatch, Full.handleMouseDown.
    destruct (Target.closest_rnd_block (MouseEvent.target e3)
              || (Target.tagName (MouseEvent.target e3) =? "BUTTON")
              || (Target.tagName (MouseEvent.target e3) =? "INPUT")); [reflexivity|].
    unfold Full.handleMouseUp. simpl.
    match goal with |- context [if ?c then _ else _] => destruct c end; reflexivity.
  - intros rect e1 e2 e3 uuid s. reflexivity.
Qed.

Lemma X6_second_pointer_down_witness :
  Full.run [Full.EvMouseDown Examples.origin (Examples.on_surface 10 10);
            Full.EvMouseMove Examples.origin (Examples.on_surface 40 50);
            Full.EvMouseDown Examples.origin (Examples.on_surface 300 300);
            Full.EvMouseUp "n"] Full.initial =
  Full.run [Full.EvMouseDown Examples.origin (Examples.on_surface 10 10);
            Full.EvMouseMove Examples.origin (Examples.on_surface 40 50);
            Full.EvMouseUp "n"] Full.initial.
Proof.
  apply (proj1 X6_second_pointer_down_during_gesture
           Examples.origin (Examples.on_surface 10 10) (Examples.on_surface 40 50)
           (Examples.on_surface 300 300) "n" Full.initial).
  reflexivity.
Defined.

(** ** The selected block and the toolbar *)

Section FindSelected.
Context {Tag : Type}.
Implicit Types (l : list (Block.t Tag)) (b : Block.t Tag) (sel : option string).

Lemma find_selected_Some sel l b :
  find (fun b => id_is (Block.id b) sel) l = Some b ->
  In b l /\ sel = Some (Block.id b).
Proof.
  intros H. apply find_some in H. destruct H as [Hin Hid]. split; [exact Hin|].
  destruct sel as [i|]; simpl in Hid; [|discriminate].
  apply String.eqb_eq in Hid. now subst.
Qed.

Lemma find_selected_absent i l :
  ~ In i (ids l) -> find (fun b => id_is (Block.id b) (Some i)) l = None.
Proof.
  induction l as [|a l IH]; simpl; intros Hn; [reflexivity|].
  destruct (String.eqb_spec (Block.id a) i) as [E|_].
  - exfalso. apply Hn. now left.
  - apply IH. intros H. apply Hn. now right.
Qed.

Lemma find_selected_present i l :
  In i (ids l) ->
  exists b, find (fun b => id_is (Block.id b) (Some i)) l = Some b /\ Block.id b = i.
Proof.
  induction l as [|a l IH]; simpl; intros Hin; [contradiction|].
  destruct (String.eqb_spec (Block.id a) i) as [E|NE].
  - exists a. split; [reflexivity | exact E].
  - destruct Hin as [E|Hin]; [contradiction|]. now apply IH.
Qed.

Lemma find_selected_None sel l :
  find (fun b => id_is (Block.id b) sel) l = None <->
  sel = None \/ exists i, sel = Some i /\ ~ In i (ids l).
Proof.
  split.
  - intros H. destruct sel as [i|]; [|now left]. right. exists i. split; [reflexivity|].
    intros Hin. destruct (find_selected_present i l Hin) as (b & Hb & _).
    rewrite Hb in H. discriminate.
  - intros [-> | (i & -> & Hn)].
    + induction l as [|a l IH]; simpl; [reflexivity | exact IH].
    + now apply find_selected_absent.
Qed.

Lemma find_selected_snoc l b :
  ~ In (Block.id b) (ids l) ->
  find (fun c => id_is (Block.id c) (Some (Block.id b))) (l ++ [b]) = Some b.
Proof.
  induction l as [|a l IH]; simpl; intros Hn.
  - now rewrite String.eqb_refl.
  - destruct (String.eqb_spec (Block.id a) (Block.id b)) as [E|_].
    + exfalso. apply Hn. now left.
    + apply IH. intros H. apply Hn. now right.
Qed.

Lemma find_selected_NoDup l b :
  NoDup (ids l) -> In b l ->
  find (fun c => id_is (Block.id c) (Some (Block.id b))) l = Some b.
Proof.
  induction l as [|a l IH]; simpl; intros Hnd Hin; [contradiction|].
  inversion Hnd as [|? ? Hnotin Hnd']; subst.
  destruct Hin as [-> | Hin].
  - now rewrite String.eqb_refl.
  - destruct (String.eqb_spec (Block.id a) (Block.id b)) as [E|_].
    + exfalso. apply Hnotin. rewrite E. unfold ids. now apply in_map.
    + now apply IH.
Qed.

Lemma find_selected_map sel l (g : Block.t Tag -> Block.t Tag) :
  (forall b, Block.id (g b) = Block.id b) ->
  find (fun b => id_is (Block.id b) sel) (map g l) =
  option_map g (find (fun b => id_is (Block.id b) sel) l).
Proof.
  intros Hg. induction l as [|a l IH]; simpl; [reflexivity|].
  rewrite Hg. destruct (id_is (Block.id a) sel); [reflexivity | exact IH].
Qed.

Lemma NoDup_ids_inj l b b' :
  NoDup (ids l) -> In b l -> In b' l -> Block.id b = Block.id b' -> b = b'.
Proof.
  intros Hnd Hb Hb' E.
  pose proof (find_selected_NoDup l b Hnd Hb) as H1.
  pose proof (find_selected_NoDup l b' Hnd Hb') as H2.
  rewrite E in H1. rewrite H1 in H2. now injection H2.
Qed.
End FindSelected.

(** X7: when the generated id is not in use, the block that has just been
    created - by the add button, by the toolbar's copy, or by a committed
    gesture - is the one [selectedBlock] finds, so the toolbar is bound to
    it; after the add button it is drawn at (100, 50). *)
Theorem X7_toolbar_bound_to_new_block (uuid : string) (s : Full.AppState) :
  ~ In uuid (ids (Full.blocks s)) ->
  Full.selectedBlock (fst (dispatch (Full.createDefaultBlock uuid) s)) =
    Some (Block.mk uuid 100 100 200 150 None) /\
  Full.toolbarPosition (fst (dispatch (Full.createDefaultBlock uuid) s)) =
    Some (Point.mk 100 50) /\
  (forall block,
      Full.selectedBlock (fst (dispatch (Full.duplicateBlock uuid block) s)) =
      Some (Block.mk uuid (Block.x block + 20) (Block.y block + 20)
                     (Block.width block) (Block.height block) (Block.content block))) /\
  (forall p,
      Full.selectionPreview s = Some p ->
      20 < Block.width p -> 20 < Block.height p ->
      Full.selectedBlock (fst (dispatch (Full.handleMouseUp uuid) s)) =
      Some (Block.mk uuid (Block.x p) (Block.y p) (Block.width p) (Block.height p)
                     (Block.content p))).
Proof.
  intros Hfresh.
  assert (forall nb : Full.Block, Block.id nb = uuid ->
            find (fun b => id_is (Block.id b) (Some uuid)) (Full.blocks s ++ [nb]) = Some nb)
    as Hfind.
  { intros nb E. rewrite <- E. apply find_selected_snoc. now rewrite E. }
  assert (Full.selectedBlock (fst (dispatch (Full.createDefaultBlock uuid) s)) =
          Some (Block.mk uuid 100 100 200 150 None)) as Hc.
  { apply (Hfind (Block.mk uuid 100 100 200 150 None)). reflexivity. }
  split; [exact Hc|]. split; [|split].
  - unfold Full.toolbarPosition. rewrite Hc. reflexivity.
  - intros block.
    apply (Hfind (Block.mk uuid (Block.x block + 20) (Block.y block + 20)
                           (Block.width block) (Block.height block) (Block.content block))).
    reflexivity.
  - intros p Hp Hw Hh. rewrite (Full_handleMouseUp_accept uuid s p Hp Hw Hh).
    apply (Hfind (Block.mk uuid (Block.x p) (Block.y p) (Block.width p) (Block.height p)
                           (Block.content p))).
    reflexivity.
Qed.

Lemma X7_toolbar_bound_witness :
  Full.selectedBlock (fst (dispatch (Full.createDefaultBlock "c") Examples.full_two_blocks)) =
    Some (Block.mk "c" 100 100 200 150 None) /\
  Full.selectedBlock (fst (dispatch (Full.handleMouseUp "c") (Examples.full_drawing 30 40))) =
    Some (Block.mk "c" 10 10 30 40 None).
Proof.
  split.
  - apply (X7_toolbar_bound_to_new_block "c" Examples.full_two_blocks).
    simpl. intros [H|[H|[]]]; discriminate H.
  - apply (proj2 (proj2 (proj2 (X7_toolbar_bound_to_new_block "c" (Examples.full_drawing 30 40)
             (fun H : In "c" [] => H)))) (Block.mk "temp" 10 10 30 40 None));
      reflexivity.
Defined.

(** X8: with unique ids, a click on a rendered block makes [selectedBlock]
    that very block, and the toolbar is drawn at the block's left edge, 50
    (full variant) or 40 (reduced variant) above its top; and as long as the
    selected id is null or present in the registry, the toolbar is absent
    exactly when nothing is selected. *)
Theorem X8_click_binds_toolbar_to_clicked_block :
  (forall (s : Full.AppState) b,
      NoDup (ids (Full.blocks s)) -> In b (Full.blocks s) ->
      Full.selectedBlock (fst (dispatch (Full.onClick b) s)) = Some b /\
      Full.toolbarPosition (fst (dispatch (Full.onClick b) s)) =
      Some (Point.mk (Block.x b) (Block.y b - 50))) /\
  (forall s : Full.AppState,
      selection_valid (Full.selectedId s) (Full.blocks s) ->
      (Full.selectedBlock s = None <-> Full.selectedId s = None)) /\
  (forall (s : Reduced.AppState) b,
      NoDup (ids (Reduced.blocks s)) -> In b (Reduced.blocks s) ->
      Reduced.selectedBlock (fst (dispatch (Reduced.onClick b) s)) = Some b /\
      Reduced.toolbarPosition (fst (dispatch (Reduced.onClick b) s)) =
      Some (Point.mk (Block.x b) (Block.y b - 40))) /\
  (forall s : Reduced.AppState,
      selection_valid (Reduced.selectedBlockId s) (Reduced.blocks s) ->
      (Reduced.selectedBlock s = None <-> Reduced.selectedBlockId s = None)).
Proof.
  split; [|split; [|split]].
  - intros s b Hnd Hin.
    assert (Full.selectedBlock (fst (dispatch (Full.onClick b) s)) = Some b) as H.
    { apply (find_selected_NoDup (Full.blocks s) b Hnd Hin). }
    split; [exact H|]. unfold Full.toolbarPosition. rewrite H. reflexivity.
  - intros s Hv. unfold Full.selectedBlock. split.
    + intros H. apply find_selected_None in H.
      destruct H as [E | (i & E & Hn)]; [exact E|].
      rewrite E in Hv. simpl in Hv. contradiction.
    + intros E. apply find_selected_None. now left.
  - intros s b Hnd Hin.
    assert (Reduced.selectedBlock (fst (dispatch (Reduced.onClick b) s)) = Some b) as H.
    { apply (find_selected_NoDup (Reduced.blocks s) b Hnd Hin). }
    split; [exact H|]. unfold Reduced.toolbarPosition. rewrite H. reflexivity.
  - intros s Hv. unfold Reduced.selectedBlock. split.
    + intros H. apply find_selected_None in H.
      destruct H as [E | (i & E & Hn)]; [exact E|].
      rewrite E in Hv. simpl in Hv. contradiction.
    + intros E. apply find_selected_None. now left.
Qed.

Lemma X8_click_binds_toolbar_witness :
  Full.toolbarPosition
    (fst (dispatch (Full.onClick (Block.mk "b" 120 120 200 150 None)) Examples.full_two_blocks))
  = Some (Point.mk 120 70) /\
  Reduced.toolbarPosition
    (fst (dispatch (Reduced.onClick (Block.mk "a" 100 100 200 150 None))
                   Examples.reduced_one_block))
  = Some (Point.mk 100 60) /\
  (Full.selectedBlock Full.initial = None <-> Full.selectedId Full.initial = None).
Proof.
  destruct X8_click_binds_toolbar_to_clicked_block as (FC & FN & RC & _).
  split; [|split].
  - apply (FC Examples.full_two_blocks (Block.mk "b" 120 120 200 150 None)).
    + simpl. repeat constructor; simpl; intuition discriminate.
    + simpl. right. left. reflexivity.
  - apply (RC Examples.reduced_one_block (Block.mk "a" 100 100 200 150 None)).
    + simpl. repeat constructor; simpl; intuition.
    + simpl. left. reflexivity.
  - apply (FN Full.initial). exact I.
Defined.

(** X9: with unique ids and a selected id present in the registry, the
    toolbar's delete button removes exactly the selected block, keeps the
    other blocks in their order, clears the selection and thereby removes
    the toolbar. *)
Theorem X9_toolbar_delete_removes_selected_block (s : Full.AppState) (i : string) :
  NoDup (ids (Full.blocks s)) ->
  Full.selectedId s = Some i ->
  In i (ids (Full.blocks s)) ->
  exists l1 b l2,
    Full.blocks s = l1 ++ b :: l2 /\
    Full.selectedBlock s = Some b /\
    dispatch Full.toolbarDel s =
    (Full.mkState (l1 ++ l2) None (Full.showModal s) (Full.promptText s)
                  (Full.isSelecting s) (Full.startPoint s) (Full.selectionPreview s), []) /\
    Full.selectedBlock (fst (dispatch Full.toolbarDel s)) = None /\
    Full.toolbarPosition (fst (dispatch Full.toolbarDel s)) = None.
Proof.
  intros Hnd Hsel Hin.
  destruct (filter_out_id_split i (Full.blocks s) Hnd Hin) as (l1 & b & l2 & E & Hb & Hf).
  assert (Full.selectedBlock s = Some b) as Hsb.
  { unfold Full.selectedBlock. rewrite Hsel, <- Hb.
    apply find_selected_NoDup; [exact Hnd|].
    rewrite E. apply in_or_app. right. now left. }
  assert (dispatch Full.toolbarDel s =
          (Full.mkState (l1 ++ l2) None (Full.showModal s) (Full.promptText s)
             (Full.isSelecting s) (Full.startPoint s) (Full.selectionPreview s), [])) as Hrun.
  { unfold Full.toolbarDel, Full.toolbar, dispatch. rewrite Hsb, Hb.
    change (dispatch (Full.deleteBlock i) s =
            (Full.mkState (l1 ++ l2) None (Full.showModal s) (Full.promptText s)
               (Full.isSelecting s) (Full.startPoint s) (Full.selectionPreview s), [])).
    rewrite Full_deleteBlock_run, Hf. reflexivity. }
  exists l1, b, l2. split; [exact E|]. split; [exact Hsb|]. split; [exact Hrun|].
  assert (Full.selectedBlock (fst (dispatch Full.toolbarDel s)) = None) as Hnone.
  { rewrite Hrun. apply (proj2 (find_selected_None None (l1 ++ l2))). now left. }
  split; [exact Hnone|].
  unfold Full.toolbarPosition. rewrite Hnone. reflexivity.
Qed.

Lemma X9_toolbar_delete_witness :
  exists l1 b l2,
    Full.blocks Examples.full_two_blocks = l1 ++ b :: l2 /\
    Full.selectedBlock Examples.full_two_blocks = Some b /\
    dispatch Full.toolbarDel Examples.full_two_blocks =
    (Full.mkState (l1 ++ l2) None false "" false None None, []).
Proof.
  destruct (X9_toolbar_delete_removes_selected_block Examples.full_two_blocks "a")
    as (l1 & b & l2 & E & Hsb & Hrun & _).
  - simpl. repeat constructor; simpl; intuition discriminate.
  - reflexivity.
  - simpl. left. reflexivity.
  - exists l1, b, l2. split; [exact E|]. split; [exact Hsb | exact Hrun].
Defined.

Lemma Full_toolbarCopy_run (uuid : string) (s : Full.AppState) (b : Full.Block) :
  Full.selectedBlock s = Some b ->
  fst (dispatch (Full.toolbarCopy uuid) s) =
  Full.mkState
    (Full.blocks s ++
       [Block.mk uuid (Block.x b + 20) (Block.y b + 20) (Block.width b) (Block.height b)
                 (Block.content b)])
    (Some uuid) (Full.showModal s) (Full.promptText s) (Full.isSelecting s)
    (Full.startPoint s) (Full.selectionPreview s).
Proof.
  intros Hsb. unfold Full.toolbarCopy, Full.toolbar, dispatch. rewrite Hsb. reflexivity.
Qed.

(** X10: the toolbar's copy button duplicates the selected block and selects
    the copy, so pressing it twice copies the copy: when the first generated
    id is not in use, the registry gains two blocks at its end, the first
    offset by 20 on both axes from the block first selected and the second
    offset by 20 again from the first copy, both with its size and content,
    and the second copy ends up selected. *)
Theorem X10_toolbar_copy_twice_cascades
        (u1 u2 : string) (s : Full.AppState) (b : Full.Block) :
  Full.selectedBlock s = Some b ->
  ~ In u1 (ids (Full.blocks s)) ->
  fst (dispatch (Full.toolbarCopy u2) (fst (dispatch (Full.toolbarCopy u1) s))) =
  Full.mkState
    (Full.blocks s ++
       [Block.mk u1 (Block.x b + 20) (Block.y b + 20) (Block.width b) (Block.height b)
                 (Block.content b);
        Block.mk u2 (Block.x b + 20 + 20) (Block.y b + 20 + 20)
                 (Block.width b) (Block.height b) (Block.content b)])
    (Some u2) (Full.showModal s) (Full.promptText s) (Full.isSelecting s)
    (Full.startPoint s) (Full.selectionPreview s).
Proof.
  intros Hsb Hfresh.
  rewrite (Full_toolbarCopy_run u1 s b Hsb).
  erewrite Full_toolbarCopy_run.
  2:{ apply (find_selected_snoc (Full.blocks s)
               (Block.mk u1 (Block.x b + 20) (Block.y b + 20) (Block.width b)
                         (Block.height b) (Block.content b))).
      exact Hfresh. }
  simpl. rewrite <- app_assoc. reflexivity.
Qed.

Lemma X10_toolbar_copy_twice_witness :
  fst (dispatch (Full.toolbarCopy "d")
         (fst (dispatch (Full.toolbarCopy "c") Examples.full_two_blocks))) =
  Full.mkState
    [Block.mk "a" 100 100 200 150 None; Block.mk "b" 120 120 200 150 None;
     Block.mk "c" 120 120 200 150 None; Block.mk "d" 140 140 200 150 None]
    (Some "d") false "" false None None.
Proof.
  apply (X10_toolbar_copy_twice_cascades "c" "d" Examples.full_two_blocks
           (Block.mk "a" 100 100 200 150 None)).
  - reflexivity.
  - simpl. intros [H|[H|[]]]; discriminate H.
Defined.

(** X11: the toolbar follows the selected block.  After the selected block
    is dragged to a point, or resized with a new position, the toolbar is
    drawn at that point's abscissa and 50 above its ordinate; dragging a
    block with another id leaves the toolbar where it was. *)
Theorem X11_toolbar_follows_selected_block (s : Full.AppState) (b : Full.Block) :
  Full.selectedBlock s = Some b ->
  (forall d,
      Full.toolbarPosition (fst (dispatch (Full.onDragStop (Block.id b) d) s)) =
      Some (Point.mk (Point.x d) (Point.y d - 50))) /\
  (forall w h pos,
      Full.toolbarPosition (fst (dispatch (Full.onResizeStop (Block.id b) w h pos) s)) =
      Some (Point.mk (Point.x pos) (Point.y pos - 50))) /\
  (forall j d,
      j <> Block.id b ->
      Full.toolbarPosition (fst (dispatch (Full.onDragStop j d) s)) =
      Full.toolbarPosition s).
Proof.
  intros Hsb.
  assert (forall j (f : Full.Block -> Full.Block),
             (forall c, Block.id (f c) = Block.id c) ->
             find (fun c => id_is (Block.id c) (Full.selectedId s))
                  (map (fun c => if Block.id c =? j then f c else c) (Full.blocks s)) =
             Some (if Block.id b =? j then f b else b)) as Hfind.
  { intros j f Hf. unfold Full.selectedBlock in Hsb. unfold Full.Block in *.
    rewrite find_selected_map.
    - rewrite Hsb. reflexivity.
    - intros c. destruct (Block.id c =? j); [apply Hf | reflexivity]. }
  split; [|split].
  - intros d.
    assert (Full.selectedBlock (fst (dispatch (Full.onDragStop (Block.id b) d) s)) =
            Some (if Block.id b =? Block.id b
                  then Block.with_pos b (Point.x d) (Point.y d) else b)) as H.
    { apply (Hfind (Block.id b) (fun c => Block.with_pos c (Point.x d) (Point.y d))).
      reflexivity. }
    unfold Full.toolbarPosition. rewrite H, String.eqb_refl. reflexivity.
  - intros w h pos.
    assert (Full.selectedBlock (fst (dispatch (Full.onResizeStop (Block.id b) w h pos) s)) =
            Some (if Block.id b =? Block.id b
                  then Block.with_size_pos b w h (Point.x pos) (Point.y pos) else b)) as H.
    { apply (Hfind (Block.id b)
               (fun c => Block.with_size_pos c w h (Point.x pos) (Point.y pos))).
      reflexivity. }
    unfold Full.toolbarPosition. rewrite H, String.eqb_refl. reflexivity.
  - intros j d Hne.
    assert (Full.selectedBlock (fst (dispatch (Full.onDragStop j d) s)) =
            Some (if Block.id b =? j
                  then Block.with_pos b (Point.x d) (Point.y d) else b)) as H.
    { apply (Hfind j (fun c => Block.with_pos c (Point.x d) (Point.y d))).
      reflexivity. }
    unfold Full.toolbarPosition. rewrite H, Hsb.
    replace (Block.id b =? j) with false
      by (symmetry; apply String.eqb_neq; intros E; apply Hne; now rewrite E).
    reflexivity.
Qed.

Lemma X11_toolbar_follows_witness :
  Full.toolbarPosition
    (fst (dispatch (Full.onDragStop "a" (Point.mk 300 200)) Examples.full_two_blocks)) =
    Some (Point.mk 300 150) /\
  Full.toolbarPosition
    (fst (dispatch (Full.onDragStop "b" (Point.mk 300 200)) Examples.full_two_blocks)) =
    Some (Point.mk 100 50).
Proof.
  destruct (X11_toolbar_follows_selected_block Examples.full_two_blocks
              (Block.mk "a" 100 100 200 150 None) eq_refl) as (Hd & _ & Ho).
  split.
  - apply (Hd (Point.mk 300 200)).
  - apply (Ho "b" (Point.mk 300 200)). discriminate.
Defined.

(** ** How content assignments compose *)

Section MapById.
Context {Tag : Type}.
Implicit Types (l : list (Block.t Tag)) (f g : Block.t Tag -> Block.t Tag).

Lemma map_by_id_twice (i : string) f g l :
  (forall b, Block.id (f b) = Block.id b) ->
  (forall b, g (f b) = g b) ->
  map (fun b => if Block.id b =? i then g b else b)
      (map (fun b => if Block.id b =? i then f b else b) l) =
  map (fun b => if Block.id b =? i then g b else b) l.
Proof.
  intros Hf Hgf. rewrite map_map. apply map_ext. intros b.
  destruct (String.eqb_spec (Block.id b) i) as [E|NE].
  - rewrite Hf. rewrite (proj2 (String.eqb_eq _ _) E). apply Hgf.
  - rewrite (proj2 (String.eqb_neq _ _) NE). reflexivity.
Qed.

Lemma map_by_id_commute (i j : string) f g l :
  (forall b, Block.id (f b) = Block.id b) ->
  (forall b, Block.id (g b) = Block.id b) ->
  (i <> j \/ forall b, f (g b) = g (f b)) ->
  map (fun b => if Block.id b =? j then g b else b)
      (map (fun b => if Block.id b =? i then f b else b) l) =
  map (fun b => if Block.id b =? i then f b else b)
      (map (fun b => if Block.id b =? j then g b else b) l).
Proof.
  intros Hf Hg Hc. rewrite !map_map. apply map_ext. intros b.
  destruct (String.eqb_spec (Block.id b) i) as [Ei|NEi];
    destruct (String.eqb_spec (Block.id b) j) as [Ej|NEj];
    rewrite ?Hf, ?Hg;
    rewrite ?(proj2 (String.eqb_eq _ _) Ei), ?(proj2 (String.eqb_eq _ _) Ej),
            ?(proj2 (String.eqb_neq _ _) NEi), ?(proj2 (String.eqb_neq _ _) NEj);
    try reflexivity.
  destruct Hc as [Hne | Hc]; [|symmetry; apply Hc].
  exfalso. apply Hne. now rewrite <- Ei, <- Ej.
Qed.

Lemma filter_out_id_map (i j : string) f l :
  (forall b, Block.id (f b) = Block.id b) ->
  filter (fun b => negb (Block.id b =? i))
         (map (fun b => if Block.id b =? j then f b else b) l) =
  map (fun b => if Block.id b =? j then f b else b)
      (filter (fun b => negb (Block.id b =? i)) l).
Proof.
  intros Hf. induction l as [|a l IH]; simpl; [reflexivity|].
  assert (Block.id (if Block.id a =? j then f a else a) = Block.id a) as E
      by (destruct (Block.id a =? j); [apply Hf | reflexivity]).
  rewrite E. destruct (Block.id a =? i); simpl; [exact IH | now rewrite IH].
Qed.
End MapById.

Lemma Full_blocks_ext (s1 s2 : Full.AppState) :
  Full.blocks s1 = Full.blocks s2 ->
  Full.selectedId s1 = Full.selectedId s2 ->
  Full.showModal s1 = Full.showModal s2 ->
  Full.promptText s1 = Full.promptText s2 ->
  Full.isSelecting s1 = Full.isSelecting s2 ->
  Full.startPoint s1 = Full.startPoint s2 ->
  Full.selectionPreview s1 = Full.selectionPreview s2 ->
  s1 = s2.
Proof. destruct s1, s2; simpl; intros; subst; reflexivity. Qed.

Lemma Reduced_blocks_ext (s1 s2 : Reduced.AppState) :
  Reduced.blocks s1 = Reduced.blocks s2 ->
  Reduced.selectedBlockId s1 = Reduced.selectedBlockId s2 ->
  Reduced.isSelecting s1 = Reduced.isSelecting s2 ->
  Reduced.startPoint s1 = Reduced.startPoint s2 ->
  Reduced.selection s1 = Reduced.selection s2 ->
  s1 = s2.
Proof. destruct s1, s2; simpl; intros; subst; reflexivity. Qed.

(** X12: content is replaced, never merged: of two content assignments to
    the same id only the later one shows.  A text set after an icon, an icon
    set after any text answer, an image that loads after an icon or a text,
    and a table that arrives for the id after an image, each give the state
    the later assignment alone would give.  Both variants for icon and
    text. *)
Theorem X12_later_content_assignment_wins :
  (forall id t (s : Full.AppState),
      t <> "" ->
      fst (dispatch (Full.addText id (Some t)) (fst (dispatch (Full.addIcon id) s))) =
      fst (dispatch (Full.addText id (Some t)) s)) /\
  (forall id answer (s : Full.AppState),
      fst (dispatch (Full.addIcon id) (fst (dispatch (Full.addText id answer) s))) =
      fst (dispatch (Full.addIcon id) s)) /\
  (forall id answer result (c : Full.AppState) (s : Full.AppState),
      fst (complete (Full.addImage_onload id result) c
             (fst (dispatch (Full.addText id answer) (fst (dispatch (Full.addIcon id) s))))) =
      fst (complete (Full.addImage_onload id result) c s)) /\
  (forall id result d (c c' : Full.AppState) (s : Full.AppState),
      Full.selectedId c = Some id ->
      fst (complete (Full.sendTablePrompt (Full.Fulfilled d)) c
             (fst (complete (Full.addImage_onload id result) c' s))) =
      fst (complete (Full.sendTablePrompt (Full.Fulfilled d)) c s)) /\
  (forall id t (s : Reduced.AppState),
      t <> "" ->
      fst (dispatch (Reduced.addTextToBlock id (Some t))
             (fst (dispatch (Reduced.addIconToBlock id) s))) =
      fst (dispatch (Reduced.addTextToBlock id (Some t)) s)) /\
  (forall id answer (s : Reduced.AppState),
      fst (dispatch (Reduced.addIconToBlock id)
             (fst (dispatch (Reduced.addTextToBlock id answer) s))) =
      fst (dispatch (Reduced.addIconToBlock id) s)).
Proof.
  split; [|split; [|split; [|split; [|split]]]].
  - intros id t s Hne. unfold dispatch, Full.addText.
    rewrite (falsy_nonempty t Hne).
    apply Full_blocks_ext; try reflexivity. simpl.
    apply map_by_id_twice; reflexivity.
  - intros id [t|] s; [|reflexivity].
    unfold dispatch, Full.addText. destruct (falsy (Some t)); [reflexivity|].
    apply Full_blocks_ext; try reflexivity. simpl.
    apply map_by_id_twice; reflexivity.
  - intros id [t|] result c s.
    + unfold dispatch, complete, Full.addText. destruct (falsy (Some t)).
      * apply Full_blocks_ext; try reflexivity. simpl.
        apply map_by_id_twice; reflexivity.
      * apply Full_blocks_ext; try reflexivity. simpl.
        rewrite !map_by_id_twice; reflexivity.
    + apply Full_blocks_ext; try reflexivity. simpl.
      apply map_by_id_twice; reflexivity.
  - intros id result d c c' s Hsel.
    apply Full_blocks_ext; try reflexivity. simpl. rewrite Hsel. simpl.
    apply (map_by_id_twice id
             (fun b => Block.with_content b (Content.mk Full.image result))
             (fun b => Block.with_content b (Content.mk Full.table d)));
      reflexivity.
  - intros id t s Hne. unfold dispatch, Reduced.addTextToBlock.
    rewrite (falsy_nonempty t Hne).
    apply Reduced_blocks_ext; try reflexivity. simpl.
    apply map_by_id_twice; reflexivity.
  - intros id [t|] s; [|reflexivity].
    unfold dispatch, Reduced.addTextToBlock. destruct (falsy (Some t)); [reflexivity|].
    apply Reduced_blocks_ext; try reflexivity. simpl.
    apply map_by_id_twice; reflexivity.
Qed.

Lemma X12_later_content_witness :
  fst (dispatch (Full.addText "a" (Some "hi"))
         (fst (dispatch (Full.addIcon "a") Examples.full_two_blocks))) =
  fst (dispatch (Full.addText "a" (Some "hi")) Examples.full_two_blocks) /\
  fst (complete (Full.sendTablePrompt (Full.Fulfilled (JArr []))) Examples.full_two_blocks
         (fst (complete (Full.addImage_onload "a" (JStr "data:,")) Full.initial
                        Examples.full_two_blocks))) =
  fst (complete (Full.sendTablePrompt (Full.Fulfilled (JArr []))) Examples.full_two_blocks
                Examples.full_two_blocks) /\
  fst (dispatch (Reduced.addTextToBlock "a" (Some "hi"))
         (fst (dispatch (Reduced.addIconToBlock "a") Examples.reduced_one_block))) =
  fst (dispatch (Reduced.addTextToBlock "a" (Some "hi")) Examples.reduced_one_block).
Proof.
  destruct X12_later_content_assignment_wins as (FT & _ & _ & FTab & RT & _).
  split; [|split].
  - apply (FT "a" "hi" Examples.full_two_blocks). discriminate.
  - apply (FTab "a" (JStr "data:,") (JArr []) Examples.full_two_blocks Full.initial
             Examples.full_two_blocks).
    reflexivity.
  - apply (RT "a" "hi" Examples.reduced_one_block). discriminate.
Defined.

(** X13: operations on different blocks do not interfere: an icon for one
    id and a text for another id give the same state in either order.  A
    drag and a content assignment give the same state in either order even on
    the same block, and so do a delete and a content assignment. *)
Theorem X13_independent_operations_commute :
  (forall i j answer (s : Full.AppState),
      i <> j ->
      fst (dispatch (Full.addText j answer) (fst (dispatch (Full.addIcon i) s))) =
      fst (dispatch (Full.addIcon i) (fst (dispatch (Full.addText j answer) s)))) /\
  (forall i j d (s : Full.AppState),
      fst (dispatch (Full.onDragStop j d) (fst (dispatch (Full.addIcon i) s))) =
      fst (dispatch (Full.addIcon i) (fst (dispatch (Full.onDragStop j d) s)))) /\
  (forall i j (s : Full.AppState),
      fst (dispatch (Full.deleteBlock i) (fst (dispatch (Full.addIcon j) s))) =
      fst (dispatch (Full.addIcon j) (fst (dispatch (Full.deleteBlock i) s)))) /\
  (forall i j answer (s : Reduced.AppState),
      i <> j ->
      fst (dispatch (Reduced.addTextToBlock j answer)
             (fst (dispatch (Reduced.addIconToBlock i) s))) =
      fst (dispatch (Reduced.addIconToBlock i)
             (fst (dispatch (Reduced.addTextToBlock j answer) s)))).
Proof.
  split; [|split; [|split]].
  - intros i j [t|] s Hne; [|reflexivity].
    unfold dispatch, Full.addText. destruct (falsy (Some t)); [reflexivity|].
    apply Full_blocks_ext; try reflexivity. simpl.
    apply map_by_id_commute; try reflexivity. now left.
  - intros i j d s.
    apply Full_blocks_ext; try reflexivity. simpl.
    apply map_by_id_commute; try reflexivity. right. reflexivity.
  - intros i j s.
    apply Full_blocks_ext; try reflexivity. simpl.
    apply filter_out_id_map. reflexivity.
  - intros i j [t|] s Hne; [|reflexivity].
    unfold dispatch, Reduced.addTextToBlock. destruct (falsy (Some t)); [reflexivity|].
    apply Reduced_blocks_ext; try reflexivity. simpl.
    apply map_by_id_commute; try reflexivity. now left.
Qed.

Lemma X13_independent_operations_witness :
  fst (dispatch (Full.addText "b" (Some "hi"))
         (fst (dispatch (Full.addIcon "a") Examples.full_two_blocks))) =
  fst (dispatch (Full.addIcon "a")
         (fst (dispatch (Full.addText "b" (Some "hi")) Examples.full_two_blocks))).
Proof.
  apply (proj1 X13_independent_operations_commute "a" "b" (Some "hi")
               Examples.full_two_blocks).
  discriminate.
Defined.

(** ** What content assignments, drags and resizes leave alone *)

Lemma map_by_id_geometry {Tag} (p : Block.t Tag -> bool) (f : Block.t Tag -> Block.t Tag)
      (l : list (Block.t Tag)) :
  (forall b, geometry (f b) = geometry b) ->
  map geometry (map (fun b => if p b then f b else b) l) = map geometry l.
Proof.
  intros Hf. rewrite map_map. apply map_ext. intros b.
  destruct (p b); [apply Hf | reflexivity].
Qed.

(** X14: a content assignment (icon, text, image completion, settled table
    request) never adds, removes, reorders, moves or resizes a block, and
    never touches the selection or the drawing state: the ids and the
    geometry of the registry, index by index, are the same before and after.
    Both variants. *)
Theorem X14_content_assignment_keeps_layout_and_selection :
  (forall ev (s : Full.AppState),
      Full.is_content_event ev = true ->
      ids (Full.blocks (fst (Full.step ev s))) = ids (Full.blocks s) /\
      map geometry (Full.blocks (fst (Full.step ev s))) = map geometry (Full.blocks s) /\
      Full.selectedId (fst (Full.step ev s)) = Full.selectedId s /\
      Full.isSelecting (fst (Full.step ev s)) = Full.isSelecting s /\
      Full.startPoint (fst (Full.step ev s)) = Full.startPoint s /\
      Full.selectionPreview (fst (Full.step ev s)) = Full.selectionPreview s) /\
  (forall ev (s : Reduced.AppState),
      (exists id, ev = Reduced.EvAddIconToBlock id) \/
      (exists id answer, ev = Reduced.EvAddTextToBlock id answer) ->
      ids (Reduced.blocks (fst (Reduced.step ev s))) = ids (Reduced.blocks s) /\
      map geometry (Reduced.blocks (fst (Reduced.step ev s))) = map geometry (Reduced.blocks s) /\
      Reduced.selectedBlockId (fst (Reduced.step ev s)) = Reduced.selectedBlockId s /\
      Reduced.isSelecting (fst (Reduced.step ev s)) = Reduced.isSelecting s /\
      Reduced.startPoint (fst (Reduced.step ev s)) = Reduced.startPoint s /\
      Reduced.selection (fst (Reduced.step ev s)) = Reduced.selection s).
Proof.
  split.
  - intros ev s Hev. destruct ev; try discriminate Hev; unfold Full.step.
    + repeat split; try reflexivity.
      * apply (map_by_id_ids _ (fun b => Block.id b =? id)). reflexivity.
      * apply (map_by_id_geometry (fun b => Block.id b =? id)). reflexivity.
    + unfold dispatch, Full.addText.
      destruct (falsy answer); [repeat split; reflexivity|].
      destruct answer as [t|]; [|repeat split; reflexivity].
      repeat split; try reflexivity.
      * apply (map_by_id_ids _ (fun b => Block.id b =? id)). reflexivity.
      * apply (map_by_id_geometry (fun b => Block.id b =? id)). reflexivity.
    + repeat split; try reflexivity.
      * apply (map_by_id_ids _ (fun b => Block.id b =? id)). reflexivity.
      * apply (map_by_id_geometry (fun b => Block.id b =? id)). reflexivity.
    + destruct res as [d|]; [|repeat split; reflexivity].
      repeat split; try reflexivity.
      * apply (map_by_id_ids _ (fun b => id_is (Block.id b) (Full.selectedId closure))).
        reflexivity.
      * apply (map_by_id_geometry (fun b => id_is (Block.id b) (Full.selectedId closure))).
        reflexivity.
  - intros ev s [(id & ->) | (id & answer & ->)]; unfold Reduced.step.
    + repeat split; try reflexivity.
      * apply (map_by_id_ids _ (fun b => Block.id b =? id)). reflexivity.
      * apply (map_by_id_geometry (fun b => Block.id b =? id)). reflexivity.
    + unfold dispatch, Reduced.addTextToBlock.
      destruct (falsy answer); [repeat split; reflexivity|].
      destruct answer as [t|]; [|repeat split; reflexivity].
      repeat split; try reflexivity.
      * apply (map_by_id_ids _ (fun b => Block.id b =? id)). reflexivity.
      * apply (map_by_id_geometry (fun b => Block.id b =? id)). reflexivity.
Qed.

Lemma X14_content_assignment_witness :
  map geometry
      (Full.blocks (fst (Full.step (Full.EvImageLoaded "b" (JStr "data:,"))
                                   Examples.full_two_blocks))) =
  [(100, 100, 200, 150); (120, 120, 200, 150)] /\
  ids (Reduced.blocks (fst (Reduced.step (Reduced.EvAddTextToBlock "a" (Some "hi"))
                                         Examples.reduced_one_block))) = ["a"].
Proof.
  destruct X14_content_assignment_keeps_layout_and_selection as (F & R).
  split.
  - apply (F (Full.EvImageLoaded "b" (JStr "data:,")) Examples.full_two_blocks).
    reflexivity.
  - apply (R (Reduced.EvAddTextToBlock "a" (Some "hi")) Examples.reduced_one_block).
    right. exists "a", (Some "hi"). reflexivity.
Defined.

(** X15: drag and resize reach their block by id.  With the id absent both
    return the state as it is.  Otherwise, at every index, a block carrying
    the id gets the new position (and, for a resize, the new size) and keeps
    its id and content, and a block with another id is kept as it is; the
    selection and the drawing state are not touched. *)
Theorem X15_drag_and_resize_by_id (id : string) (s : Full.AppState) :
  (~ In id (ids (Full.blocks s)) ->
   (forall d, dispatch (Full.onDragStop id d) s = (s, [])) /\
   (forall w h pos, dispatch (Full.onResizeStop id w h pos) s = (s, []))) /\
  (forall d (n : nat) b,
      nth_error (Full.blocks s) n = Some b ->
      nth_error (Full.blocks (fst (dispatch (Full.onDragStop id d) s))) n =
      Some (if Block.id b =? id
            then Block.mk (Block.id b) (Point.x d) (Point.y d)
                          (Block.width b) (Block.height b) (Block.content b)
            else b)) /\
  (forall w h pos (n : nat) b,
      nth_error (Full.blocks s) n = Some b ->
      nth_error (Full.blocks (fst (dispatch (Full.onResizeStop id w h pos) s))) n =
      Some (if Block.id b =? id
            then Block.mk (Block.id b) (Point.x pos) (Point.y pos) w h (Block.content b)
            else b)) /\
  (forall d, Full.selectedId (fst (dispatch (Full.onDragStop id d) s)) = Full.selectedId s) /\
  (forall w h pos,
      Full.selectedId (fst (dispatch (Full.onResizeStop id w h pos) s)) = Full.selectedId s).
Proof.
  split; [|split; [|split; [|split]]].
  - intros Habs. split.
    + intros d. apply (Full_setBlocksFn_id _ s s). now apply map_by_id_absent.
    + intros w h pos. apply (Full_setBlocksFn_id _ s s). now apply map_by_id_absent.
  - intros d n b Hn.
    change (Full.blocks (fst (dispatch (Full.onDragStop id d) s)))
      with (map (fun b => if Block.id b =? id
                          then Block.with_pos b (Point.x d) (Point.y d)
                          else b) (Full.blocks s)).
    unfold Full.Block in *. rewrite nth_error_map, Hn. reflexivity.
  - intros w h pos n b Hn.
    change (Full.blocks (fst (dispatch (Full.onResizeStop id w h pos) s)))
      with (map (fun b => if Block.id b =? id
                          then Block.with_size_pos b w h (Point.x pos) (Point.y pos)
                          else b) (Full.blocks s)).
    unfold Full.Block in *. rewrite nth_error_map, Hn. reflexivity.
  - reflexivity.
  - reflexivity.
Qed.

Lemma X15_drag_and_resize_witness :
  dispatch (Full.onDragStop "z" (Point.mk 5 5)) Examples.full_two_blocks =
    (Examples.full_two_blocks, []) /\
  nth_error (Full.blocks (fst (dispatch (Full.onResizeStop "b" 60 70 (Point.mk 5 6))
                                        Examples.full_two_blocks))) 1 =
    Some (Block.mk "b" 5 6 60 70 None).
Proof.
  destruct (X15_drag_and_resize_by_id "z" Examples.full_two_blocks) as (Habs & _).
  destruct (X15_drag_and_resize_by_id "b" Examples.full_two_blocks) as (_ & _ & Hr & _).
  split.
  - apply Habs. simpl. intros [H|[H|[]]]; discriminate H.
  - apply (Hr 60 70 (Point.mk 5 6) 1%nat (Block.mk "b" 120 120 200 150 None)). reflexivity.
Defined.

(** ** A fulfilled table request *)

Lemma id_is_none_or_absent {Tag} (sel : option string) (l : list (Block.t Tag))
      (f : Block.t Tag -> Block.t Tag) :
  sel = None \/ (exists i, sel = Some i /\ ~ In i (ids l)) ->
  map (fun b => if id_is (Block.id b) sel then f b else b) l = l.
Proof.
  intros [-> | (i & -> & Habs)].
  - simpl. apply map_id.
  - simpl. now apply map_by_id_absent.
Qed.

(** X16: a table response is applied to the block that was selected when
    the request was sent, whatever is selected when the response arrives.
    If nothing was selected then, or that block has been deleted since, no
    block changes, yet the prompt dialog is still closed and the prompt text
    cleared, without any notification.  In particular a request sent right
    after a pointer-down that the surface did not ignore changes no block. *)
Theorem X16_table_response_targets_block_selected_at_request :
  (forall d (c s : Full.AppState),
      Full.selectedId c = None \/
      (exists i, Full.selectedId c = Some i /\ ~ In i (ids (Full.blocks s))) ->
      complete (Full.sendTablePrompt (Full.Fulfilled d)) c s =
      (Full.mkState (Full.blocks s) (Full.selectedId s) false ""
                    (Full.isSelecting s) (Full.startPoint s) (Full.selectionPreview s), [])) /\
  (forall d (c s : Full.AppState) i (n : nat) b,
      Full.selectedId c = Some i ->
      nth_error (Full.blocks s) n = Some b ->
      nth_error (Full.blocks (fst (complete (Full.sendTablePrompt (Full.Fulfilled d)) c s))) n =
      Some (if Block.id b =? i
            then Block.mk (Block.id b) (Block.x b) (Block.y b) (Block.width b)
                          (Block.height b) (Some (Content.mk Full.table d))
            else b)) /\
  (forall d rect e (s0 s : Full.AppState),
      Full_guard e = false ->
      Full.blocks (fst (complete (Full.sendTablePrompt (Full.Fulfilled d))
                          (fst (dispatch (Full.handleMouseDown rect e) s0)) s)) =
      Full.blocks s).
Proof.
  split; [|split].
  - intros d c s H. unfold complete, Full.sendTablePrompt. simpl.
    rewrite (id_is_none_or_absent (Full.selectedId c) (Full.blocks s) _ H). reflexivity.
  - intros d c s i n b Hsel Hn.
    change (Full.blocks (fst (complete (Full.sendTablePrompt (Full.Fulfilled d)) c s)))
      with (map (fun b => if id_is (Block.id b) (Full.selectedId c)
                          then Block.with_content b (Content.mk Full.table d)
                          else b) (Full.blocks s)).
    unfold Full.Block in *. rewrite nth_error_map, Hn, Hsel. reflexivity.
  - intros d rect e s0 s G.
    destruct (Full_handleMouseDown_guarded rect e s0) as [_ Hrun].
    rewrite (Hrun G). simpl. apply map_id.
Qed.

Lemma X16_table_response_witness :
  complete (Full.sendTablePrompt (Full.Fulfilled (JArr []))) Full.initial
           Examples.full_two_blocks =
    (Examples.full_two_blocks, []) /\
  nth_error (Full.blocks (fst (complete (Full.sendTablePrompt (Full.Fulfilled (JArr [])))
                                 Examples.full_two_blocks
                                 (fst (dispatch (Full.onClick (Block.mk "b" 120 120 200 150 None))
                                                Examples.full_two_blocks))))) 0 =
    Some (Block.mk "a" 100 100 200 150 (Some (Content.mk Full.table (JArr [])))) /\
  Full.blocks (fst (complete (Full.sendTablePrompt (Full.Fulfilled (JArr [])))
                      (fst (dispatch (Full.handleMouseDown Examples.origin
                                        (MouseEvent.mk 5 5 (Target.mk false "TEXTAREA")))
                                     Examples.full_two_blocks))
                      Examples.full_two_blocks)) =
    Full.blocks Examples.full_two_blocks.
Proof.
  destruct X16_table_response_targets_block_selected_at_request as (Hnone & Hsel & Hdown).
  split; [|split].
  - apply (Hnone (JArr []) Full.initial Examples.full_two_blocks). left. reflexivity.
  - apply (Hsel (JArr []) Examples.full_two_blocks
             (fst (dispatch (Full.onClick (Block.mk "b" 120 120 200 150 None))
                            Examples.full_two_blocks))
             "a" 0%nat (Block.mk "a" 100 100 200 150 None)); reflexivity.
  - apply (Hdown (JArr []) Examples.origin (MouseEvent.mk 5 5 (Target.mk false "TEXTAREA"))
             Examples.full_two_blocks Examples.full_two_blocks).
    reflexivity.
Defined.

(** ** Delete at the edges *)

Lemma filter_out_id_absent {Tag} (i : string) (l : list (Block.t Tag)) :
  ~ In i (ids l) -> filter (fun b => negb (Block.id b =? i)) l = l.
Proof.
  induction l as [|a l IH]; simpl; intros Hn; [reflexivity|].
  destruct (String.eqb_spec (Block.id a) i) as [E|_]; simpl.
  - exfalso. apply Hn. now left.
  - f_equal. apply IH. intros H. apply Hn. now right.
Qed.

Lemma filter_out_id_gone {Tag} (i : string) (l : list (Block.t Tag)) :
  ~ In i (ids (filter (fun b => negb (Block.id b =? i)) l)).
Proof.
  unfold ids. rewrite in_map_iff. intros (b & Hb & Hin).
  apply filter_In in Hin. destruct Hin as [_ Hneq].
  rewrite <- Hb, String.eqb_refl in Hneq. discriminate.
Qed.

(** X17: delete needs no uniqueness and no presence of the id.  After it no
    block of the registry carries the id, and the blocks kept are exactly
    those with another id; deleting an id that is absent changes only the
    selection, which is cleared; deleting twice is deleting once; and an
    image that finishes loading for the deleted id afterwards changes
    nothing. *)
Theorem X17_delete_by_id_edge_cases (id : string) (s : Full.AppState) :
  ~ In id (ids (Full.blocks (fst (dispatch (Full.deleteBlock id) s)))) /\
  (forall b, In b (Full.blocks (fst (dispatch (Full.deleteBlock id) s))) <->
             In b (Full.blocks s) /\ Block.id b <> id) /\
  (~ In id (ids (Full.blocks s)) ->
   dispatch (Full.deleteBlock id) s =
   (Full.mkState (Full.blocks s) None (Full.showModal s) (Full.promptText s)
                 (Full.isSelecting s) (Full.startPoint s) (Full.selectionPreview s), [])) /\
  fst (dispatch (Full.deleteBlock id) (fst (dispatch (Full.deleteBlock id) s))) =
  fst (dispatch (Full.deleteBlock id) s) /\
  (forall result c,
      complete (Full.addImage_onload id result) c (fst (dispatch (Full.deleteBlock id) s)) =
      (fst (dispatch (Full.deleteBlock id) s), [])).
Proof.
  rewrite Full_deleteBlock_run. simpl.
  split; [apply filter_out_id_gone|].
  split; [|split; [|split]].
  - intros b. rewrite filter_In. split.
    + intros [Hin Hneq]. split; [exact Hin|].
      intros E. rewrite E, String.eqb_refl in Hneq. discriminate.
    + intros [Hin Hneq]. split; [exact Hin|].
      apply negb_true_iff. now apply String.eqb_neq.
  - intros Habs. now rewrite (filter_out_id_absent id _ Habs).
  - apply Full_blocks_ext; try reflexivity. simpl.
    apply (filter_out_id_absent id _ (filter_out_id_gone id (Full.blocks s))).
  - intros result c. apply Full_setBlocksFn_id.
    apply map_by_id_absent. simpl. apply filter_out_id_gone.
Qed.

Lemma X17_delete_by_id_witness :
  dispatch (Full.deleteBlock "z") Examples.full_two_blocks =
  (Full.mkState (Full.blocks Examples.full_two_blocks) None false "" false None None, []).
Proof.
  apply (proj1 (proj2 (proj2 (X17_delete_by_id_edge_cases "z" Examples.full_two_blocks)))).
  simpl. intros [H|[H|[]]]; discriminate H.
Defined.

(** ** What no event does *)

Lemma ids_filter_out {Tag} (i : string) (l : list (Block.t Tag)) :
  ids (filter (fun b => negb (Block.id b =? i)) l) =
  filter (fun j => negb (j =? i)) (ids l).
Proof.
  induction l as [|a l IH]; simpl; [reflexivity|].
  destruct (Block.id a =? i); simpl; [exact IH | now rewrite IH].
Qed.

Lemma Full_step_extends_ids (ev : Full.Event) (s : Full.AppState) :
  Full.is_delete_event ev = false ->
  exists tail,
    ids (Full.blocks (fst (Full.step ev s))) = ids (Full.blocks s) ++ tail /\
    (List.length tail <= 1)%nat.
Proof.
  intros Hev.
  assert (forall (p : Full.Block -> bool) (f : Full.Block -> Full.Block),
             (forall b, Block.id (f b) = Block.id b) ->
             exists tail,
               ids (map (fun b => if p b then f b else b) (Full.blocks s)) =
               ids (Full.blocks s) ++ tail /\ (List.length tail <= 1)%nat) as Hmap.
  { intros p f Hf. exists []. rewrite app_nil_r. split; [|simpl; lia].
    now apply map_by_id_ids. }
  assert (exists tail, ids (Full.blocks s) = ids (Full.blocks s) ++ tail /\
                       (List.length tail <= 1)%nat) as Hsame.
  { exists []. rewrite app_nil_r. split; [reflexivity | simpl; lia]. }
  assert (forall nb : Full.Block,
             exists tail, ids (Full.blocks s ++ [nb]) = ids (Full.blocks s) ++ tail /\
                          (List.length tail <= 1)%nat) as Hsnoc.
  { intros nb. exists [Block.id nb]. unfold ids. rewrite map_app.
    split; [reflexivity | simpl; lia]. }
  destruct ev; try discriminate Hev; unfold Full.step.
  - apply Hsnoc.
  - apply Hsnoc.
  - apply (Hmap (fun b => Block.id b =? id)). reflexivity.
  - unfold dispatch, Full.addText.
    destruct (falsy answer); [exact Hsame|].
    destruct answer as [t|]; [|exact Hsame].
    apply (Hmap (fun b => Block.id b =? id)). reflexivity.
  - apply (Hmap (fun b => Block.id b =? id)). reflexivity.
  - destruct res as [d|]; [|exact Hsame].
    apply (Hmap (fun b => id_is (Block.id b) (Full.selectedId closure))). reflexivity.
  - unfold dispatch, Full.handleMouseDown.
    destruct (Target.closest_rnd_block (MouseEvent.target e)
              || (Target.tagName (MouseEvent.target e) =? "BUTTON")
              || (Target.tagName (MouseEvent.target e) =? "INPUT")); exact Hsame.
  - unfold dispatch, Full.handleMouseMove.
    destruct (Full.isSelecting s); [|exact Hsame].
    destruct (Full.startPoint s); exact Hsame.
  - unfold dispatch, Full.handleMouseUp.
    destruct (Full.selectionPreview s) as [p|]; [|exact Hsame].
    destruct ((Block.width p >? 20)%Z && (Block.height p >? 20)%Z); [|exact Hsame].
    apply Hsnoc.
  - exact Hsame.
  - apply (Hmap (fun b => Block.id b =? id)). reflexivity.
  - apply (Hmap (fun b => Block.id b =? id)). reflexivity.
  - exact Hsame.
  - exact Hsame.
Qed.

Lemma Reduced_step_extends_ids (ev : Reduced.Event) (s : Reduced.AppState) :
  exists tail,
    ids (Reduced.blocks (fst (Reduced.step ev s))) = ids (Reduced.blocks s) ++ tail /\
    (List.length tail <= 1)%nat.
Proof.
  assert (forall (p : Reduced.Block -> bool) (f : Reduced.Block -> Reduced.Block),
             (forall b, Block.id (f b) = Block.id b) ->
             exists tail,
               ids (map (fun b => if p b then f b else b) (Reduced.blocks s)) =
               ids (Reduced.blocks s) ++ tail /\ (List.length tail <= 1)%nat) as Hmap.
  { intros p f Hf. exists []. rewrite app_nil_r. split; [|simpl; lia].
    now apply map_by_id_ids. }
  assert (exists tail, ids (Reduced.blocks s) = ids (Reduced.blocks s) ++ tail /\
                       (List.length tail <= 1)%nat) as Hsame.
  { exists []. rewrite app_nil_r. split; [reflexivity | simpl; lia]. }
  destruct ev; unfold Reduced.step.
  - exact Hsame.
  - unfold dispatch, Reduced.handleMouseMove.
    destruct (Reduced.isSelecting s); [|exact Hsame].
    destruct (Reduced.startPoint s); exact Hsame.
  - unfold dispatch, Reduced.handleMouseUp.
    destruct (Reduced.selection s) as [p|]; [|exact Hsame].
    destruct ((Block.width p >? 20)%Z && (Block.height p >? 20)%Z); [|exact Hsame].
    exists [uuid]. simpl. unfold ids. rewrite map_app.
    split; [reflexivity | simpl; lia].
  - apply (Hmap (fun b => Block.id b =? id)). reflexivity.
  - unfold dispatch, Reduced.addTextToBlock.
    destruct (falsy answer); [exact Hsame|].
    destruct answer as [t|]; [|exact Hsame].
    apply (Hmap (fun b => Block.id b =? id)). reflexivity.
  - exact Hsame.
Qed.

(** X18: the registry keeps its order and its ids.  Every event other than
    delete leaves the sequence of ids as it was, or adds one id at the end;
    delete drops the occurrences of the deleted id and keeps the rest in
    order.  No event changes the id of a block, reorders blocks or inserts
    one in the middle.  In the reduced variant, which has no delete, the
    sequence of ids only ever grows at the end. *)
Theorem X18_registry_order_is_stable :
  (forall ev (s : Full.AppState),
      Full.is_delete_event ev = false ->
      exists tail,
        ids (Full.blocks (fst (Full.step ev s))) = ids (Full.blocks s) ++ tail /\
        (List.length tail <= 1)%nat) /\
  (forall id (s : Full.AppState),
      ids (Full.blocks (fst (Full.step (Full.EvDeleteBlock id) s))) =
      filter (fun j => negb (j =? id)) (ids (Full.blocks s))) /\
  (forall ev (s : Reduced.AppState),
      exists tail,
        ids (Reduced.blocks (fst (Reduced.step ev s))) = ids (Reduced.blocks s) ++ tail /\
        (List.length tail <= 1)%nat).
Proof.
  split; [exact Full_step_extends_ids|].
  split; [|exact Reduced_step_extends_ids].
  intros id s. apply ids_filter_out.
Qed.

Lemma X18_registry_order_witness :
  exists tail,
    ids (Full.blocks (fst (Full.step (Full.EvDuplicateBlock "c" (Block.mk "a" 100 100 200 150 None))
                                     Examples.full_two_blocks))) =
    ["a"; "b"] ++ tail /\ (List.length tail <= 1)%nat.
Proof.
  apply (proj1 X18_registry_order_is_stable
           (Full.EvDuplicateBlock "c" (Block.mk "a" 100 100 200 150 None))
           Examples.full_two_blocks).
  reflexivity.
Defined.

(** X19: the only notification the application ever raises is the alert of
    a rejected table request.  Every other event of the full variant, and
    every event of the reduced variant, notifies nothing - in particular an
    operation that finds no block to act on stays silent. *)
Theorem X19_only_a_rejected_table_request_alerts :
  (forall ev (s : Full.AppState),
      snd (Full.step ev s) =
      match ev with
      | Full.EvTableSettled _ Full.Rejected => [Alert "Backend error generating table"]
      | _ => []
      end) /\
  (forall ev (s : Reduced.AppState), snd (Reduced.step ev s) = []).
Proof.
  split.
  - intros ev s. destruct ev; unfold Full.step; try reflexivity.
    + unfold dispatch, Full.addText.
      destruct (falsy answer); [reflexivity|]. destruct answer; reflexivity.
    + destruct res; reflexivity.
    + unfold dispatch, Full.handleMouseDown.
      destruct (Target.closest_rnd_block (MouseEvent.target e)
                || (Target.tagName (MouseEvent.target e) =? "BUTTON")
                || (Target.tagName (MouseEvent.target e) =? "INPUT")); reflexivity.
    + unfold dispatch, Full.handleMouseMove.
      destruct (Full.isSelecting s); [|reflexivity].
      destruct (Full.startPoint s); reflexivity.
    + unfold dispatch, Full.handleMouseUp.
      destruct (Full.selectionPreview s) as [p|]; [|reflexivity].
      destruct ((Block.width p >? 20)%Z && (Block.height p >? 20)%Z); reflexivity.
  - intros ev s. destruct ev; unfold Reduced.step; try reflexivity.
    + unfold dispatch, Reduced.handleMouseMove.
      destruct (Reduced.isSelecting s); [|reflexivity].
      destruct (Reduced.startPoint s); reflexivity.
    + unfold dispatch, Reduced.handleMouseUp.
      destruct (Reduced.selection s) as [p|]; [|reflexivity].
      destruct ((Block.width p >? 20)%Z && (Block.height p >? 20)%Z); reflexivity.
    + unfold dispatch, Reduced.addTextToBlock.
      destruct (falsy answer); [reflexivity|]. destruct answer; reflexivity.
Qed.

(** ** Sizes *)

Section AboveThreshold.
Context {Tag : Type}.
Implicit Types (l : list (Block.t Tag)) (b : Block.t Tag).

Lemma Forall_above_threshold_map l (p : Block.t Tag -> bool) (f : Block.t Tag -> Block.t Tag) :
  (forall b, above_threshold b -> above_threshold (f b)) ->
  Forall above_threshold l ->
  Forall above_threshold (map (fun b => if p b then f b else b) l).
Proof.
  intros Hf Hl. apply Forall_map. eapply Forall_impl; [|exact Hl].
  intros b Hb. destruct (p b); [now apply Hf | exact Hb].
Qed.

Lemma Forall_above_threshold_snoc l b :
  Forall above_threshold l -> above_threshold b -> Forall above_threshold (l ++ [b]).
Proof. intros Hl Hb. apply Forall_app. split; [exact Hl | now constructor]. Qed.

Lemma Forall_above_threshold_filter l (p : Block.t Tag -> bool) :
  Forall above_threshold l -> Forall above_threshold (filter p l).
Proof.
  intros Hl. apply Forall_forall. intros b Hin. apply filter_In in Hin.
  rewrite Forall_forall in Hl. now apply Hl.
Qed.
End AboveThreshold.

Lemma gtb_both_above (w h : Z) :
  ((w >? 20)%Z && (h >? 20)%Z) = true -> 20 < w /\ 20 < h.
Proof.
  intros H. apply andb_true_iff in H. destruct H as [Hw Hh].
  split; now apply Z.gtb_lt.
Qed.

Lemma Reduced_step_keeps_above_threshold (ev : Reduced.Event) (s : Reduced.AppState) :
  Forall above_threshold (Reduced.blocks s) ->
  Forall above_threshold (Reduced.blocks (fst (Reduced.step ev s))).
Proof.
  intros Hl. destruct ev; unfold Reduced.step.
  - exact Hl.
  - unfold dispatch, Reduced.handleMouseMove.
    destruct (Reduced.isSelecting s); [|exact Hl].
    destruct (Reduced.startPoint s); exact Hl.
  - unfold dispatch, Reduced.handleMouseUp.
    destruct (Reduced.selection s) as [p|]; [|exact Hl].
    destruct ((Block.width p >? 20)%Z && (Block.height p >? 20)%Z) eqn:Hc; [|exact Hl].
    apply (Forall_above_threshold_snoc (Reduced.blocks s) (Block.with_id p uuid) Hl).
    exact (gtb_both_above _ _ Hc).
  - apply (Forall_above_threshold_map _ (fun b => Block.id b =? id)); [|exact Hl].
    intros b Hb. exact Hb.
  - unfold dispatch, Reduced.addTextToBlock.
    destruct (falsy answer); [exact Hl|].
    destruct answer as [t|]; [|exact Hl].
    apply (Forall_above_threshold_map _ (fun b => Block.id b =? id)); [|exact Hl].
    intros b Hb. exact Hb.
  - exact Hl.
Qed.

Lemma Full_step_keeps_above_threshold (ev : Full.Event) (s : Full.AppState) :
  Full.resize_above_threshold ev ->
  Full.copies_from_registry ev s ->
  Forall above_threshold (Full.blocks s) ->
  Forall above_threshold (Full.blocks (fst (Full.step ev s))).
Proof.
  intros Hrs Hcp Hl. destruct ev; simpl in Hrs, Hcp; unfold Full.step.
  - apply (Forall_above_threshold_snoc (Full.blocks s) (Block.mk uuid 100 100 200 150 None) Hl).
    split; reflexivity.
  - apply (Forall_above_threshold_filter (Full.blocks s) _ Hl).
  - apply (Forall_above_threshold_snoc (Full.blocks s)
             (Block.mk uuid (Block.x block + 20) (Block.y block + 20)
                       (Block.width block) (Block.height block) (Block.content block)) Hl).
    rewrite Forall_forall in Hl. exact (Hl block Hcp).
  - apply (Forall_above_threshold_map _ (fun b => Block.id b =? id)); [|exact Hl].
    intros b Hb. exact Hb.
  - unfold dispatch, Full.addText.
    destruct (falsy answer); [exact Hl|].
    destruct answer as [t|]; [|exact Hl].
    apply (Forall_above_threshold_map _ (fun b => Block.id b =? id)); [|exact Hl].
    intros b Hb. exact Hb.
  - apply (Forall_above_threshold_map _ (fun b => Block.id b =? id)); [|exact Hl].
    intros b Hb. exact Hb.
  - destruct res as [d|]; [|exact Hl].
    apply (Forall_above_threshold_map _
             (fun b => id_is (Block.id b) (Full.selectedId closure))); [|exact Hl].
    intros b Hb. exact Hb.
  - unfold dispatch, Full.handleMouseDown.
    destruct (Target.closest_rnd_block (MouseEvent.target e)
              || (Target.tagName (MouseEvent.target e) =? "BUTTON")
              || (Target.tagName (MouseEvent.target e) =? "INPUT")); exact Hl.
  - unfold dispatch, Full.handleMouseMove.
    destruct (Full.isSelecting s); [|exact Hl].
    destruct (Full.startPoint s); exact Hl.
  - unfold dispatch, Full.handleMouseUp.
    destruct (Full.selectionPreview s) as [p|]; [|exact Hl].
    destruct ((Block.width p >? 20)%Z && (Block.height p >? 20)%Z) eqn:Hc; [|exact Hl].
    apply (Forall_above_threshold_snoc (Full.blocks s) (Block.with_id p uuid) Hl).
    exact (gtb_both_above _ _ Hc).
  - exact Hl.
  - apply (Forall_above_threshold_map _ (fun b => Block.id b =? id)); [|exact Hl].
    intros b Hb. exact Hb.
  - apply (Forall_above_threshold_map _ (fun b => Block.id b =? id)); [|exact Hl].
    intros b _. exact Hrs.
  - exact Hl.
  - exact Hl.
Qed.

(** X20: in the reduced variant every block of the registry is more than 20
    wide and more than 20 high after any sequence of events from the initial
    state.  In the full variant every event keeps that property provided a
    copy is made of a block of the registry and a resize delivers a width
    and a height above 20; pointer events, the add button, delete, drag and
    content assignments need no condition. *)
Theorem X20_blocks_stay_above_threshold :
  (forall evs, Forall above_threshold (Reduced.blocks (Reduced.run evs Reduced.initial))) /\
  (forall ev (s : Full.AppState),
      Full.resize_above_threshold ev ->
      Full.copies_from_registry ev s ->
      Forall above_threshold (Full.blocks s) ->
      Forall above_threshold (Full.blocks (fst (Full.step ev s)))).
Proof.
  split; [|exact Full_step_keeps_above_threshold].
  assert (forall evs s, Forall above_threshold (Reduced.blocks s) ->
                        Forall above_threshold (Reduced.blocks (Reduced.run evs s))) as Hrun.
  { induction evs as [|ev evs IH]; intros s Hs; [exact Hs|].
    simpl. apply IH. now apply Reduced_step_keeps_above_threshold. }
  intros evs. apply Hrun. constructor.
Qed.

Lemma X20_blocks_stay_above_threshold_witness :
  Forall above_threshold
         (Full.blocks (fst (Full.step (Full.EvResizeStop "a" 21 30 (Point.mk 0 0))
                                      Examples.full_two_blocks))) /\
  Forall above_threshold
         (Full.blocks (fst (Full.step (Full.EvDuplicateBlock "c"
                                         (Block.mk "a" 100 100 200 150 None))
                                      Examples.full_two_blocks))).
Proof.
  destruct X20_blocks_stay_above_threshold as (_ & HF).
  assert (Forall above_threshold (Full.blocks Examples.full_two_blocks)) as Hl.
  { repeat constructor. }
  split.
  - apply (HF (Full.EvResizeStop "a" 21 30 (Point.mk 0 0)) Examples.full_two_blocks).
    + split; reflexivity.
    + exact I.
    + exact Hl.
  - apply (HF (Full.EvDuplicateBlock "c" (Block.mk "a" 100 100 200 150 None))
              Examples.full_two_blocks).
    + exact I.
    + simpl. left. reflexivity.
    + exact Hl.
Defined.

(** ** Pointer-down and the toolbar *)

(** X21: what a pointer-down does to the toolbar.  In the reduced variant
    every pointer-down, wherever it lands, leaves no block selected and no
    toolbar.  In the full variant a pointer-down on a block, a button or an
    input leaves the toolbar where it is, and any other pointer-down removes
    it. *)
Theorem X21_pointer_down_and_toolbar :
  (forall rect e (s : Reduced.AppState),
      Reduced.selectedBlock (fst (dispatch (Reduced.handleMouseDown rect e) s)) = None /\
      Reduced.toolbarPosition (fst (dispatch (Reduced.handleMouseDown rect e) s)) = None) /\
  (forall rect e (s : Full.AppState),
      Full_guard e = true ->
      Full.toolbarPosition (fst (dispatch (Full.handleMouseDown rect e) s)) =
      Full.toolbarPosition s) /\
  (forall rect e (s : Full.AppState),
      Full_guard e = false ->
      Full.selectedBlock (fst (dispatch (Full.handleMouseDown rect e) s)) = None /\
      Full.toolbarPosition (fst (dispatch (Full.handleMouseDown rect e) s)) = None).
Proof.
  split; [|split].
  - intros rect e s.
    assert (Reduced.selectedBlock (fst (dispatch (Reduced.handleMouseDown rect e) s)) = None)
      as H.
    { apply (proj2 (find_selected_None None (Reduced.blocks s))). now left. }
    split; [exact H|]. unfold Reduced.toolbarPosition. rewrite H. reflexivity.
  - intros rect e s G.
    destruct (Full_handleMouseDown_guarded rect e s) as [Hrun _].
    rewrite (Hrun G). reflexivity.
  - intros rect e s G.
    destruct (Full_handleMouseDown_guarded rect e s) as [_ Hrun].
    assert (Full.selectedBlock (fst (dispatch (Full.handleMouseDown rect e) s)) = None) as H.
    { rewrite (Hrun G). apply (proj2 (find_selected_None None (Full.blocks s))). now left. }
    split; [exact H|]. unfold Full.toolbarPosition. rewrite H. reflexivity.
Qed.

Lemma X21_pointer_down_and_toolbar_witness :
  Full.toolbarPosition
    (fst (dispatch (Full.handleMouseDown Examples.origin (Examples.on_button 110 60))
                   Examples.full_two_blocks)) = Some (Point.mk 100 50) /\
  Full.toolbarPosition
    (fst (dispatch (Full.handleMouseDown Examples.origin (Examples.on_surface 400 400))
                   Examples.full_two_blocks)) = None.
Proof.
  destruct X21_pointer_down_and_toolbar as (_ & Hg & Hu).
  split.
  - apply (Hg Examples.origin (Examples.on_button 110 60) Examples.full_two_blocks).
    reflexivity.
  - apply (Hu Examples.origin (Examples.on_surface 400 400) Examples.full_two_blocks).
    reflexivity.
Defined.

(** ** Add, decorate, copy *)

Lemma map_by_id_snoc_fresh {Tag} (l : list (Block.t Tag)) (nb : Block.t Tag)
      (f : Block.t Tag -> Block.t Tag) :
  ~ In (Block.id nb) (ids l) ->
  map (fun b => if Block.id b =? Block.id nb then f b else b) (l ++ [nb]) = l ++ [f nb].
Proof.
  intros Hfresh. rewrite map_app. rewrite (map_by_id_absent f _ l Hfresh).
  simpl. now rewrite String.eqb_refl.
Qed.

(** X22: the add button, then the toolbar's icon button, then the toolbar's
    copy button.  From any state, when the first generated id is not in use,
    the registry gains two blocks at its end: the default block at (100,100)
    of size 200 x 150 carrying the icon, and its copy at (120,120) with the
    same size and the same icon under the second id; the copy is selected and
    no earlier block is changed. *)
Theorem X22_add_icon_copy (u1 u2 : string) (s : Full.AppState) :
  ~ In u1 (ids (Full.blocks s)) ->
  fst (dispatch (Full.toolbarCopy u2)
         (fst (dispatch Full.toolbarIcon
                 (fst (dispatch (Full.createDefaultBlock u1) s))))) =
  Full.mkState
    (Full.blocks s ++
       [Block.mk u1 100 100 200 150 (Some (Content.mk Full.icon (JStr Full.ICON)));
        Block.mk u2 120 120 200 150 (Some (Content.mk Full.icon (JStr Full.ICON)))])
    (Some u2) (Full.showModal s) (Full.promptText s) (Full.isSelecting s)
    (Full.startPoint s) (Full.selectionPreview s).
Proof.
  intros Hfresh.
  assert (Full.selectedBlock (fst (dispatch (Full.createDefaultBlock u1) s)) =
          Some (Block.mk u1 100 100 200 150 None)) as Hsb.
  { apply (find_selected_snoc (Full.blocks s) (Block.mk u1 100 100 200 150 None)).
    exact Hfresh. }
  assert (fst (dispatch Full.toolbarIcon (fst (dispatch (Full.createDefaultBlock u1) s))) =
          Full.mkState
            (Full.blocks s ++
               [Block.mk u1 100 100 200 150 (Some (Content.mk Full.icon (JStr Full.ICON)))])
            (Some u1) (Full.showModal s) (Full.promptText s) (Full.isSelecting s)
            (Full.startPoint s) (Full.selectionPreview s)) as Hicon.
  { unfold Full.toolbarIcon, Full.toolbar. unfold dispatch at 1. rewrite Hsb.
    apply Full_blocks_ext; try reflexivity. simpl.
    apply (map_by_id_snoc_fresh (Full.blocks s) (Block.mk u1 100 100 200 150 None)
             (fun b => Block.with_content b (Content.mk Full.icon (JStr Full.ICON)))).
    exact Hfresh. }
  rewrite Hicon.
  erewrite Full_toolbarCopy_run.
  2:{ apply (find_selected_snoc (Full.blocks s)
               (Block.mk u1 100 100 200 150 (Some (Content.mk Full.icon (JStr Full.ICON))))).
      exact Hfresh. }
  simpl. rewrite <- app_assoc. reflexivity.
Qed.

Lemma X22_add_icon_copy_witness :
  Full.blocks
    (fst (dispatch (Full.toolbarCopy "d")
            (fst (dispatch Full.toolbarIcon
                    (fst (dispatch (Full.createDefaultBlock "c") Full.initial)))))) =
  [Block.mk "c" 100 100 200 150 (Some (Content.mk Full.icon (JStr Full.ICON)));
   Block.mk "d" 120 120 200 150 (Some (Content.mk Full.icon (JStr Full.ICON)))].
Proof.
  rewrite (X22_add_icon_copy "c" "d" Full.initial (fun H : In "c" [] => H)).
  reflexivity.
Defined.
